(** * The Whisper JNI bridge and its stub engine

    A shallow embedding of
      - [whisper.h]        the engine interface,
      - [whisper_dummy.c]  the stub engine,
      - [whisper_jni.cpp]  the three JNI entry points [init], [free] and
                           [fullTranscribe],
    followed by the properties of the bridge.

    Conventions of the model.
      - The target is an LP64 Android ABI: a native pointer is a 64-bit
        unsigned address, [jlong] a 64-bit signed integer, [int] and
        [jsize] 32-bit signed integers.
      - Undefined behaviour of native code (an invalid [free], a JNI call
        on a reference that is no object of the expected class) is the
        outcome [Fault]; every other run returns normally with [Ok].
      - JNI primitives succeed on valid references: exhaustion of the
        managed heap is not modelled.  Exhaustion of the C heap is, since
        the stub hands the result of [malloc] to the bridge unchecked.
      - The bridge has no [throw] and calls no [Throw] or [ThrowNew], and
        the JNI primitives it uses raise on exhaustion only: a run that
        ends in [Ok] has raised nothing.
      - Integers are [Z].  The two casts between pointer and [jlong] wrap
        and are written out.  Nothing else can: a Java array has fewer
        than [2 ^ 31] elements, so its length is a [jsize], and the loop
        counter stays below an [int].
      - A C string is the [string] of its characters before the
        terminator. *)

From Stdlib Require Import ZArith Lia Bool List String.
From stdpp Require Import base list.
Import ListNotations.

Local Open Scope string_scope.
Local Open Scope Z_scope.
Local Open Scope list_scope.

(** ** Machine integers and the pointer/handle casts *)

Definition ptr := Z.
Definition jlong := Z.
Definition jint := Z.
Definition jsize := Z.

Definition NULL : ptr := 0.

Definition is_ptr (p : Z) : Prop := 0 <= p < 2 ^ 64.
Definition is_jlong (h : Z) : Prop := - 2 ^ 63 <= h < 2 ^ 63.

(** [(jlong) ctx]: the 64 bits of the address read as a signed integer. *)
Definition ptr_to_jlong (p : ptr) : jlong :=
  (p + 2 ^ 63) mod 2 ^ 64 - 2 ^ 63.

(** [(struct whisper_context * ) contextPtr]: the 64 bits of the integer
    read as an address. *)
Definition jlong_to_ptr (h : jlong) : ptr :=
  h mod 2 ^ 64.

(** A sample is an IEEE-754 binary32 value, kept as its 32-bit pattern: the
    bridge and the stub move samples and never compute with them. *)
Definition jfloat := Z.

(** ** Outcomes *)

Inductive outcome (A : Type) : Type :=
| Ok (a : A)
| Fault.
Arguments Ok {A} a.
Arguments Fault {A}.

(** ** whisper.h: the engine interface *)

(** Modelled from the spec: the definition of [struct whisper_full_params]
    is missing from the sources ([whisper.h] only declares the tag).  The
    spec describes it as a "decoding strategy selector, progress-reporting
    flag", which are the two members the stub and the bridge assign. *)
Record whisper_full_params : Type := {
  strategy : Z;
  print_progress : bool
}.

(** The six functions of [whisper.h] over an engine-private state.  A
    [whisper_context *] is an address; what the engine keeps behind it is
    part of [engine_state].  [whisper_full] receives what [samples] points
    to (a [const float *]: it can read the buffer, not write it) and
    [n_samples].  The two segment accessors read the state. *)
Class Engine : Type := {
  engine_state : Type;
  whisper_init_from_file : string -> engine_state -> ptr * engine_state;
  whisper_free : ptr -> engine_state -> outcome unit * engine_state;
  whisper_full_default_params : Z -> whisper_full_params;
  whisper_full :
    ptr -> whisper_full_params -> list jfloat -> Z ->
    engine_state -> outcome Z * engine_state;
  whisper_full_n_segments : ptr -> engine_state -> Z;
  whisper_full_get_segment_text : ptr -> Z -> engine_state -> string
}.

(** What the bridge asks of the engine, in call order. *)
Inductive engine_call : Type :=
| CallInitFromFile (path_model : string)
| CallFree (ctx : ptr)
| CallFullDefaultParams (strategy : Z)
| CallFull (ctx : ptr) (params : whisper_full_params)
           (samples : list jfloat) (n_samples : Z)
| CallFullNSegments (ctx : ptr)
| CallFullGetSegmentText (ctx : ptr) (i_segment : Z).

(** ** jni.h and android/log.h: the managed side *)

Definition jref := nat.

Inductive jobject : Type :=
| JString (chars : string)
| JFloatArray (elems : list jfloat).

Inductive log_priority : Type := ANDROID_LOG_INFO | ANDROID_LOG_ERROR.

Inductive log_arg : Type :=
| ArgString (s : string)
| ArgInt (n : Z).

Record log_line : Type := {
  prio : log_priority;
  tag : string;
  fmt : string;
  args : list log_arg
}.

(** The state behind a [JNIEnv *]:
      - [objects]: the managed heap, a reference being an index into it;
      - [utf_chars]: the strings with a native view handed out by
        [GetStringUTFChars] and not yet released, one entry per view;
      - [elements]: the native element buffers handed out by
        [GetFloatArrayElements], a [jfloat *] being an index into the
        table; a released buffer leaves [None] behind;
      - [logcat]: what [__android_log_print] has written. *)
Record JNIEnv : Type := {
  objects : list jobject;
  utf_chars : list jref;
  elements : list (option (jref * list jfloat));
  logcat : list log_line
}.

Definition JNI_COMMIT : Z := 1.
Definition JNI_ABORT : Z := 2.

Fixpoint remove_first (r : jref) (l : list jref) : option (list jref) :=
  match l with
  | [] => None
  | x :: l' =>
      if Nat.eqb x r then Some l'
      else option_map (cons x) (remove_first r l')
  end.

Definition set_objects (o : list jobject) (j : JNIEnv) : JNIEnv :=
  {| objects := o; utf_chars := utf_chars j;
     elements := elements j; logcat := logcat j |}.
Definition set_utf_chars (u : list jref) (j : JNIEnv) : JNIEnv :=
  {| objects := objects j; utf_chars := u;
     elements := elements j; logcat := logcat j |}.
Definition set_elements (b : list (option (jref * list jfloat)))
    (j : JNIEnv) : JNIEnv :=
  {| objects := objects j; utf_chars := utf_chars j;
     elements := b; logcat := logcat j |}.
Definition set_logcat (l : list log_line) (j : JNIEnv) : JNIEnv :=
  {| objects := objects j; utf_chars := utf_chars j;
     elements := elements j; logcat := l |}.

Module JNI.

Definition GetStringUTFChars (s : jref) (j : JNIEnv)
  : outcome string * JNIEnv :=
  match objects j !! s with
  | Some (JString chars) => (Ok chars, set_utf_chars (s :: utf_chars j) j)
  | _ => (Fault, j)
  end.

Definition ReleaseStringUTFChars (s : jref) (j : JNIEnv)
  : outcome unit * JNIEnv :=
  match remove_first s (utf_chars j) with
  | Some u => (Ok tt, set_utf_chars u j)
  | None => (Fault, j)
  end.

Definition NewStringUTF (bytes : string) (j : JNIEnv)
  : outcome jref * JNIEnv :=
  (Ok (length (objects j)), set_objects (objects j ++ [JString bytes]) j).

Definition GetArrayLength (a : jref) (j : JNIEnv)
  : outcome jsize * JNIEnv :=
  match objects j !! a with
  | Some (JFloatArray elems) => (Ok (Z.of_nat (length elems)), j)
  | _ => (Fault, j)
  end.

Definition GetFloatArrayElements (a : jref) (j : JNIEnv)
  : outcome nat * JNIEnv :=
  match objects j !! a with
  | Some (JFloatArray elems) =>
      (Ok (length (elements j)),
       set_elements (elements j ++ [Some (a, elems)]) j)
  | _ => (Fault, j)
  end.

(** What a [jfloat *] obtained from [GetFloatArrayElements] points to. *)
Definition load_elements (buf : nat) (j : JNIEnv)
  : outcome (list jfloat) * JNIEnv :=
  match elements j !! buf with
  | Some (Some (_, elems)) => (Ok elems, j)
  | _ => (Fault, j)
  end.

(** Mode [0] copies the buffer back into the array and frees the buffer,
    [JNI_COMMIT] copies back and keeps it, [JNI_ABORT] frees it without
    copying back. *)
Definition ReleaseFloatArrayElements (a : jref) (buf : nat) (mode : Z)
    (j : JNIEnv) : outcome unit * JNIEnv :=
  match elements j !! buf with
  | Some (Some (a', elems)) =>
      if negb (Nat.eqb a' a) then (Fault, j)
      else
        let j1 :=
          if mode =? JNI_ABORT then j
          else set_objects (<[a := JFloatArray elems]> (objects j)) j in
        let j2 :=
          if mode =? JNI_COMMIT then j1
          else set_elements (<[buf := None]> (elements j1)) j1 in
        (Ok tt, j2)
  | _ => (Fault, j)
  end.

Definition android_log_print (p : log_priority) (t f : string)
    (a : list log_arg) (j : JNIEnv) : outcome unit * JNIEnv :=
  (Ok tt,
   set_logcat (logcat j ++ [{| prio := p; tag := t; fmt := f; args := a |}])
     j).

End JNI.

(** ** whisper_jni.cpp: the bridge *)

Section Bridge.

Context {eng : Engine}.

(** Everything a bridge call can read or change: the engine behind the
    interface, the managed runtime, and the calls made to the engine so
    far. *)
Record World : Type := {
  engine : engine_state;
  env : JNIEnv;
  calls : list engine_call
}.

(** A native call runs on a world and either returns or faults; the world
    it leaves is kept in both cases. *)
Definition M (A : Type) : Type := World -> outcome A * World.

Definition ret {A} (a : A) : M A := fun w => (Ok a, w).

Definition bind {A B} (m : M A) (k : A -> M B) : M B :=
  fun w =>
    match m w with
    | (Ok a, w') => k a w'
    | (Fault, w') => (Fault, w')
    end.

Notation "x <- m ;; k" := (bind m (fun x => k))
  (at level 89, m at next level, right associativity).
Notation "m ;;; k" := (bind m (fun _ => k))
  (at level 89, right associativity).

(** A JNI primitive, run on the [env] of the world. *)
Definition jni {A} (f : JNIEnv -> outcome A * JNIEnv) : M A :=
  fun w =>
    let (r, j) := f (env w) in
    (r, {| engine := engine w; env := j; calls := calls w |}).

(** An engine function, run on the [engine] of the world and recorded. *)
Definition call {A} (c : engine_call)
    (f : engine_state -> outcome A * engine_state) : M A :=
  fun w =>
    let (r, e) := f (engine w) in
    (r, {| engine := e; env := env w; calls := calls w ++ [c] |}).

Definition TAG : string := "WhisperJNI".

Definition LOGI (f : string) (a : list log_arg) : M unit :=
  jni (JNI.android_log_print ANDROID_LOG_INFO TAG f a).

Definition LOGE (f : string) (a : list log_arg) : M unit :=
  jni (JNI.android_log_print ANDROID_LOG_ERROR TAG f a).

Definition Java_com_pccontrol_voice_audio_SpeechToTextService_00024WhisperModel_init
    (thiz modelPath language : jref) (threads : jint) : M jlong :=
  model_path_str <- jni (JNI.GetStringUTFChars modelPath) ;;
  LOGI "Initializing Whisper model from %s" [ArgString model_path_str] ;;;
  ctx <- call (CallInitFromFile model_path_str)
           (fun e => let (p, e') := whisper_init_from_file model_path_str e
                     in (Ok p, e')) ;;
  jni (JNI.ReleaseStringUTFChars modelPath) ;;;
  if ctx =? NULL then
    LOGE "Failed to initialize Whisper context" [] ;;;
    ret 0
  else
    ret (ptr_to_jlong ctx).

Definition Java_com_pccontrol_voice_audio_SpeechToTextService_00024WhisperModel_free
    (thiz : jref) (contextPtr : jlong) : M unit :=
  let ctx := jlong_to_ptr contextPtr in
  if negb (ctx =? NULL) then
    call (CallFree ctx) (whisper_free ctx)
  else
    ret tt.

Definition with_print_progress (b : bool) (p : whisper_full_params)
  : whisper_full_params :=
  {| strategy := strategy p; print_progress := b |}.

(** [for (int i = 0; i < n_segments; ++i) result += text;] from index [i]
    on.  The loop is entered with [Z.to_nat n_segments] units of fuel,
    which [segments_loop_fuel] below shows to be enough. *)
Fixpoint segments_loop (fuel : nat) (ctx : ptr) (n_segments i : Z)
    (result : string) : M string :=
  match fuel with
  | O => ret result
  | S fuel' =>
      if i <? n_segments then
        text <- call (CallFullGetSegmentText ctx i)
                  (fun e => (Ok (whisper_full_get_segment_text ctx i e), e)) ;;
        segments_loop fuel' ctx n_segments (i + 1) (String.append result text)
      else
        ret result
  end.

Definition Java_com_pccontrol_voice_audio_SpeechToTextService_00024WhisperModel_fullTranscribe
    (thiz : jref) (contextPtr : jlong) (audioData : jref) : M jref :=
  let ctx := jlong_to_ptr contextPtr in
  if ctx =? NULL then
    jni (JNI.NewStringUTF "")
  else
    len <- jni (JNI.GetArrayLength audioData) ;;
    samples <- jni (JNI.GetFloatArrayElements audioData) ;;
    (* 0 = WHISPER_SAMPLING_GREEDY *)
    params0 <- call (CallFullDefaultParams 0)
                 (fun e => (Ok (whisper_full_default_params 0), e)) ;;
    let params := with_print_progress false params0 in
    LOGI "Starting transcription of %d samples" [ArgInt len] ;;;
    (* the engine dereferences [samples]: it is handed what is there *)
    pointee <- jni (JNI.load_elements samples) ;;
    status <- call (CallFull ctx params pointee len)
                (whisper_full ctx params pointee len) ;;
    if negb (status =? 0) then
      LOGE "Whisper full transcription failed" [] ;;;
      jni (JNI.ReleaseFloatArrayElements audioData samples 0) ;;;
      jni (JNI.NewStringUTF "")
    else
      n_segments <- call (CallFullNSegments ctx)
                      (fun e => (Ok (whisper_full_n_segments ctx e), e)) ;;
      result <- segments_loop (Z.to_nat n_segments) ctx n_segments 0 "" ;;
      jni (JNI.ReleaseFloatArrayElements audioData samples 0) ;;;
      jni (JNI.NewStringUTF result).

End Bridge.

Arguments World eng : clear implicits.
Arguments M eng A : clear implicits.

Abbreviation jni_init :=
  Java_com_pccontrol_voice_audio_SpeechToTextService_00024WhisperModel_init.
Abbreviation jni_free :=
  Java_com_pccontrol_voice_audio_SpeechToTextService_00024WhisperModel_free.
Abbreviation jni_fullTranscribe :=
  Java_com_pccontrol_voice_audio_SpeechToTextService_00024WhisperModel_fullTranscribe.

(** ** stdlib.h: the C heap *)

Module Libc.

(** A heap that carves blocks off [brk] up to [heap_end] and never
    reuses one; [allocated] lists the blocks handed out and not yet
    freed.  [malloc] answers [NULL] when the request does not fit.  Where
    the blocks lie, how far apart, and that a freed block is not handed
    out again are choices of this allocator that a C library makes
    otherwise; the properties of the stub below rest on what every
    [malloc] and [free] do: the answer is [NULL] or a block not in use,
    and [free] takes a block out of use. *)
Record heap : Type := {
  brk : Z;
  heap_end : Z;
  allocated : list ptr
}.

Definition fits (size : Z) (h : heap) : bool :=
  (0 <? brk h) && (brk h + size <=? heap_end h) && (heap_end h <=? 2 ^ 64).

Definition malloc (size : Z) (h : heap) : ptr * heap :=
  if fits size h then
    (brk h,
     {| brk := brk h + size; heap_end := heap_end h;
        allocated := brk h :: allocated h |})
  else
    (NULL, h).

Definition is_allocated (p : ptr) (h : heap) : bool :=
  existsb (Z.eqb p) (allocated h).

(** [free(NULL)] does nothing; freeing what [malloc] did not hand out, or
    handing it back twice, is undefined. *)
Definition free (p : ptr) (h : heap) : outcome unit * heap :=
  if p =? NULL then (Ok tt, h)
  else if is_allocated p h then
    (Ok tt,
     {| brk := brk h; heap_end := heap_end h;
        allocated := List.filter (fun q => negb (q =? p)) (allocated h) |})
  else (Fault, h).

End Libc.

(** ** whisper_dummy.c: the stub engine *)

Module Dummy.

(** [struct whisper_context { int dummy; }] *)
Definition sizeof_whisper_context : Z := 4.

Definition whisper_init_from_file (path_model : string) (h : Libc.heap)
  : ptr * Libc.heap :=
  let (ctx, h') := Libc.malloc sizeof_whisper_context h in
  (ctx, h').

Definition whisper_free (ctx : ptr) (h : Libc.heap)
  : outcome unit * Libc.heap :=
  Libc.free ctx h.

Definition whisper_full_default_params (strategy : Z) : whisper_full_params :=
  let params := {| strategy := strategy; print_progress := false |} in
  params.

Definition whisper_full (ctx : ptr) (params : whisper_full_params)
    (samples : list jfloat) (n_samples : Z) (h : Libc.heap)
  : outcome Z * Libc.heap :=
  (Ok 0, h).

Definition whisper_full_n_segments (ctx : ptr) (h : Libc.heap) : Z := 1.

Definition whisper_full_get_segment_text (ctx : ptr) (i_segment : Z)
    (h : Libc.heap) : string :=
  " [Dummy Transcription] ".

End Dummy.

#[export] Instance dummy_engine : Engine := {|
  engine_state := Libc.heap;
  whisper_init_from_file := Dummy.whisper_init_from_file;
  whisper_free := Dummy.whisper_free;
  whisper_full_default_params := Dummy.whisper_full_default_params;
  whisper_full := Dummy.whisper_full;
  whisper_full_n_segments := Dummy.whisper_full_n_segments;
  whisper_full_get_segment_text := Dummy.whisper_full_get_segment_text
|}.

(** ** A second engine, for the paths the stub never takes

    The stub never fails to infer and always reports one segment.  This
    engine implements the same interface, rejects the empty locator, fails
    on an empty buffer and otherwise produces one segment per sample; it
    exercises the failure branches and the loop of the bridge.  Its state
    is the number of contexts created and the segments of the last
    successful inference. *)

Module Strict.

Record state : Type := {
  created : Z;
  segments : list string
}.

Definition whisper_init_from_file (path_model : string) (s : state)
  : ptr * state :=
  if String.eqb path_model "" then (NULL, s)
  else
    ((16 * (created s + 1)) mod 2 ^ 64,
     {| created := created s + 1; segments := segments s |}).

Definition whisper_free (ctx : ptr) (s : state) : outcome unit * state :=
  (Ok tt, s).

Definition whisper_full_default_params (strategy : Z) : whisper_full_params :=
  {| strategy := strategy; print_progress := true |}.

Definition word (x : jfloat) : string :=
  if x =? 0 then "." else "#".

Definition whisper_full (ctx : ptr) (params : whisper_full_params)
    (samples : list jfloat) (n_samples : Z) (s : state)
  : outcome Z * state :=
  if n_samples <=? 0 then (Ok 1, s)
  else
    (Ok 0,
     {| created := created s;
        segments := List.map word (take (Z.to_nat n_samples) samples) |}).

Definition whisper_full_n_segments (ctx : ptr) (s : state) : Z :=
  Z.of_nat (length (segments s)).

Definition whisper_full_get_segment_text (ctx : ptr) (i_segment : Z)
    (s : state) : string :=
  nth (Z.to_nat i_segment) (segments s) "".

End Strict.

Definition strict_engine : Engine := {|
  engine_state := Strict.state;
  whisper_init_from_file := Strict.whisper_init_from_file;
  whisper_free := Strict.whisper_free;
  whisper_full_default_params := Strict.whisper_full_default_params;
  whisper_full := Strict.whisper_full;
  whisper_full_n_segments := Strict.whisper_full_n_segments;
  whisper_full_get_segment_text := Strict.whisper_full_get_segment_text
|}.

(** ** Vocabulary of the statements *)

(** Concatenation in order, nothing in between. *)
Definition concat_texts (l : list string) : string :=
  fold_right String.append "" l.

(** [segment_text(ctx, i)] for [i] in [[0, segment_count(ctx))], read in the
    engine state [e]. *)
Definition segment_texts {eng : Engine} (ctx : ptr) (e : engine_state)
  : list string :=
  List.map (fun i => whisper_full_get_segment_text ctx (Z.of_nat i) e)
    (seq 0 (Z.to_nat (whisper_full_n_segments ctx e))).

(** The texts of the [k] segments from index [i] on, and the calls that
    read them. *)
Definition texts_from {eng : Engine} (ctx : ptr) (e : engine_state) (i : Z)
    (k : nat) : list string :=
  List.map (fun j => whisper_full_get_segment_text ctx (i + Z.of_nat j) e)
    (seq 0 k).

Definition reads_from (ctx : ptr) (i : Z) (k : nat) : list engine_call :=
  List.map (fun j => CallFullGetSegmentText ctx (i + Z.of_nat j)) (seq 0 k).

(** What a transcription leaves in the managed runtime: one new string
    object, one element buffer acquired and released, and its log lines. *)
Definition log_starting (len : jsize) : log_line :=
  {| prio := ANDROID_LOG_INFO; tag := "WhisperJNI";
     fmt := "Starting transcription of %d samples"; args := [ArgInt len] |}.

Definition log_failed : log_line :=
  {| prio := ANDROID_LOG_ERROR; tag := "WhisperJNI";
     fmt := "Whisper full transcription failed"; args := [] |}.

Definition env_pinned (a : jref) (samples : list jfloat)
    (lines : list log_line) (j : JNIEnv) : JNIEnv :=
  {| objects := objects j; utf_chars := utf_chars j;
     elements := elements j ++ [Some (a, samples)];
     logcat := logcat j ++ lines |}.

Definition env_returned (text : string) (lines : list log_line) (j : JNIEnv)
  : JNIEnv :=
  {| objects := objects j ++ [JString text]; utf_chars := utf_chars j;
     elements := elements j ++ [None];
     logcat := logcat j ++ lines |}.

(** The Parameters of a transcription: the defaults of the greedy strategy
    with progress reporting off. *)
Definition greedy_params {eng : Engine} : whisper_full_params :=
  with_print_progress false (whisper_full_default_params 0).

(** The placeholder text of the stub. *)
Definition placeholder : string := " [Dummy Transcription] ".

(** Worlds and references used to exercise the statements. *)
Definition boot_env : JNIEnv := {|
  objects := [JString "model.bin"; JString "en"; JFloatArray [0; 0; 0];
              JFloatArray []; JString ""];
  utf_chars := [];
  elements := [];
  logcat := []
|}.

Definition roomy_heap : Libc.heap :=
  {| Libc.brk := 4096; Libc.heap_end := 8192; Libc.allocated := [] |}.

Definition full_heap : Libc.heap :=
  {| Libc.brk := 8192; Libc.heap_end := 8192; Libc.allocated := [4096] |}.

Definition dummy_world (h : Libc.heap) : World dummy_engine :=
  @Build_World dummy_engine h boot_env [].

Definition strict_world : World strict_engine :=
  @Build_World strict_engine
    {| Strict.created := 0; Strict.segments := [] |} boot_env [].

(** The world [init] leaves from [strict_world], and the engine state after
    an inference over three silent samples. *)
Definition strict_ready : World strict_engine :=
  @Build_World strict_engine
    {| Strict.created := 1; Strict.segments := [] |}
    (set_logcat
       [{| prio := ANDROID_LOG_INFO; tag := "WhisperJNI";
           fmt := "Initializing Whisper model from %s";
           args := [ArgString "model.bin"] |}] boot_env)
    [CallInitFromFile "model.bin"].

Definition strict_heard : Strict.state :=
  {| Strict.created := 1; Strict.segments := ["."; "."; "."] |}.

(** The world [init] leaves from [dummy_world roomy_heap]. *)
Definition dummy_ready : World dummy_engine :=
  @Build_World dummy_engine
    {| Libc.brk := 4100; Libc.heap_end := 8192; Libc.allocated := [4096] |}
    (set_logcat
       [{| prio := ANDROID_LOG_INFO; tag := "WhisperJNI";
           fmt := "Initializing Whisper model from %s";
           args := [ArgString "model.bin"] |}] boot_env)
    [CallInitFromFile "model.bin"].

(** ** A scripted engine

    A third implementation of the interface whose answers are its state:
    the status [whisper_full] reports, the segment count it claims (which
    may be zero or negative) and the text of every segment.  It reaches the
    edge of the segment loop, which neither other engine does. *)

Module Scripted.

Record state : Type := {
  status : Z;
  count : Z;
  text : string
}.

Definition whisper_init_from_file (path_model : string) (s : state)
  : ptr * state :=
  (32, s).

Definition whisper_free (ctx : ptr) (s : state) : outcome unit * state :=
  (Ok tt, s).

Definition whisper_full_default_params (strategy : Z) : whisper_full_params :=
  {| strategy := strategy; print_progress := false |}.

Definition whisper_full (ctx : ptr) (params : whisper_full_params)
    (samples : list jfloat) (n_samples : Z) (s : state)
  : outcome Z * state :=
  (Ok (status s), s).

Definition whisper_full_n_segments (ctx : ptr) (s : state) : Z := count s.

Definition whisper_full_get_segment_text (ctx : ptr) (i_segment : Z)
    (s : state) : string :=
  text s.

End Scripted.

Definition scripted_engine : Engine := {|
  engine_state := Scripted.state;
  whisper_init_from_file := Scripted.whisper_init_from_file;
  whisper_free := Scripted.whisper_free;
  whisper_full_default_params := Scripted.whisper_full_default_params;
  whisper_full := Scripted.whisper_full;
  whisper_full_n_segments := Scripted.whisper_full_n_segments;
  whisper_full_get_segment_text := Scripted.whisper_full_get_segment_text
|}.

(** A world whose engine succeeds and claims a negative segment count. *)
Definition scripted_world : World scripted_engine :=
  @Build_World scripted_engine
    {| Scripted.status := 0; Scripted.count := -3; Scripted.text := "x" |}
    boot_env [].

(** ** Vocabulary of the further properties *)

(** The log lines of [init]. *)
Definition log_initializing (path : string) : log_line :=
  {| prio := ANDROID_LOG_INFO; tag := "WhisperJNI";
     fmt := "Initializing Whisper model from %s";
     args := [ArgString path] |}.

Definition log_init_failed : log_line :=
  {| prio := ANDROID_LOG_ERROR; tag := "WhisperJNI";
     fmt := "Failed to initialize Whisper context"; args := [] |}.

(** What [fullTranscribe] may ask of the engine on behalf of the Context
    [ctx]: default Parameters of strategy [0], an inference on [ctx], and
    the segments of [ctx].  It creates and destroys nothing. *)
Definition asked_by_transcribe (ctx : ptr) (c : engine_call) : Prop :=
  match c with
  | CallInitFromFile _ => False
  | CallFree _ => False
  | CallFullDefaultParams s => s = 0
  | CallFull ctx' _ _ _ => ctx' = ctx /\ ctx <> NULL
  | CallFullNSegments ctx' => ctx' = ctx /\ ctx <> NULL
  | CallFullGetSegmentText ctx' i => ctx' = ctx /\ ctx <> NULL /\ 0 <= i
  end.

(** Every block handed out lies below [brk]: what [malloc] returns next is
    no block in use. *)
Definition heap_ok (h : Libc.heap) : bool :=
  forallb (fun q => q <? Libc.brk h) (Libc.allocated h).

(** The heap [roomy_heap] after two earlier allocations. *)
Definition used_heap : Libc.heap :=
  {| Libc.brk := 4104; Libc.heap_end := 8192;
     Libc.allocated := [4100; 4096] |}.

(** * Properties *)

(** ** The casts *)

Lemma ptr_to_jlong_range (p : Z) : is_jlong (ptr_to_jlong p).
Proof.
  unfold is_jlong, ptr_to_jlong.
  pose proof (Z.mod_pos_bound (p + 2 ^ 63) (2 ^ 64)). lia.
Qed.

Lemma jlong_to_ptr_range (h : Z) : is_ptr (jlong_to_ptr h).
Proof.
  unfold is_ptr, jlong_to_ptr. apply Z.mod_pos_bound. lia.
Qed.

Lemma ptr_jlong_ptr (p : Z) : jlong_to_ptr (ptr_to_jlong p) = p mod 2 ^ 64.
Proof.
  unfold jlong_to_ptr, ptr_to_jlong.
  rewrite Zminus_mod, Zmod_mod, <- Zminus_mod.
  f_equal. lia.
Qed.

Lemma ptr_roundtrip (p : Z) : is_ptr p -> jlong_to_ptr (ptr_to_jlong p) = p.
Proof.
  intros Hp. rewrite ptr_jlong_ptr. apply Z.mod_small. exact Hp.
Qed.

Lemma jlong_roundtrip (h : Z) : is_jlong h -> ptr_to_jlong (jlong_to_ptr h) = h.
Proof.
  unfold is_jlong, ptr_to_jlong, jlong_to_ptr. intros Hh.
  rewrite Zplus_mod_idemp_l.
  rewrite Z.mod_small by lia. lia.
Qed.

Lemma ptr_to_jlong_null (p : Z) :
  ptr_to_jlong p = 0 <-> jlong_to_ptr (ptr_to_jlong p) = NULL.
Proof.
  split.
  - intros ->. reflexivity.
  - intros H. rewrite <- (jlong_roundtrip (ptr_to_jlong p)).
    + rewrite H. reflexivity.
    + apply ptr_to_jlong_range.
Qed.

Lemma jlong_to_ptr_null (h : Z) :
  is_jlong h -> (jlong_to_ptr h = NULL <-> h = 0).
Proof.
  intros Hh. split.
  - intros H. rewrite <- (jlong_roundtrip h Hh), H. reflexivity.
  - intros ->. reflexivity.
Qed.

Lemma handle_nonzero (p : Z) : is_ptr p -> p <> NULL -> ptr_to_jlong p <> 0.
Proof.
  intros Hp Hnull Hz. apply Hnull.
  rewrite <- (ptr_roundtrip p Hp), Hz. reflexivity.
Qed.

(** ** Strings *)

Lemma append_empty_r (s : string) : String.append s "" = s.
Proof.
  induction s as [| c s IH]; simpl; [reflexivity | now rewrite IH].
Qed.

Lemma append_assoc (s t u : string) :
  String.append (String.append s t) u = String.append s (String.append t u).
Proof.
  induction s as [| c s IH]; simpl; [reflexivity | now rewrite IH].
Qed.

(** ** The segment loop *)

Section Loop.

Context {eng : Engine}.

Lemma texts_from_S ctx e i k :
  texts_from ctx e i (S k) =
  whisper_full_get_segment_text ctx i e :: texts_from ctx e (i + 1) k.
Proof.
  unfold texts_from. simpl. rewrite Z.add_0_r. f_equal.
  rewrite <- seq_shift, List.map_map.
  apply List.map_ext. intros j. f_equal. lia.
Qed.

Lemma reads_from_S ctx i k :
  reads_from ctx i (S k) =
  CallFullGetSegmentText ctx i :: reads_from ctx (i + 1) k.
Proof.
  unfold reads_from. simpl. rewrite Z.add_0_r. f_equal.
  rewrite <- seq_shift, List.map_map.
  apply List.map_ext. intros j. f_equal. lia.
Qed.

(** With at least [n_segments - i] units of fuel the loop leaves through
    its condition, having read every segment from [i] to [n_segments - 1]
    once, in order, and having appended each to [result]. *)
Lemma segments_loop_fuel (fuel : nat) :
  forall (ctx : ptr) (n i : Z) (result : string) (w : World eng),
    (Z.to_nat (n - i) <= fuel)%nat ->
    segments_loop fuel ctx n i result w =
    (Ok (String.append result
           (concat_texts (texts_from ctx (engine w) i (Z.to_nat (n - i))))),
     {| engine := engine w; env := env w;
        calls := calls w ++ reads_from ctx i (Z.to_nat (n - i)) |}).
Proof.
  induction fuel as [| fuel IH]; intros ctx n i result w Hfuel.
  - assert (Z.to_nat (n - i) = 0%nat) as -> by lia.
    simpl. unfold ret. rewrite append_empty_r, app_nil_r.
    now destruct w.
  - simpl. destruct (i <? n) eqn:Hlt.
    + apply Z.ltb_lt in Hlt.
      assert (Z.to_nat (n - i) = S (Z.to_nat (n - (i + 1)))) as Hk by lia.
      unfold bind at 1. unfold call at 1.
      rewrite IH by (simpl; lia). simpl.
      rewrite Hk, texts_from_S, reads_from_S. simpl.
      rewrite append_assoc, <- app_assoc. reflexivity.
    + apply Z.ltb_ge in Hlt.
      assert (Z.to_nat (n - i) = 0%nat) as -> by lia.
      simpl. unfold ret. rewrite append_empty_r, app_nil_r.
      now destruct w.
Qed.

Lemma texts_from_0 ctx e :
  texts_from ctx e 0 (Z.to_nat (whisper_full_n_segments ctx e)) =
  segment_texts ctx e.
Proof. reflexivity. Qed.

End Loop.

(** ** init *)

Lemma remove_first_head (r : jref) (l : list jref) :
  remove_first r (r :: l) = Some l.
Proof. simpl. now rewrite Nat.eqb_refl. Qed.

(** One run of [init] on a valid locator: the string view is taken and
    released, the engine is asked once, and the handle is zero for a null
    context and the cast of the context otherwise. *)
Lemma init_run {eng : Engine} (thiz modelPath language : jref) (threads : jint)
    (w : World eng) (path : string) :
  objects (env w) !! modelPath = Some (JString path) ->
  exists w',
    jni_init thiz modelPath language threads w =
      (Ok (if fst (whisper_init_from_file path (engine w)) =? NULL then 0
           else ptr_to_jlong (fst (whisper_init_from_file path (engine w)))),
       w')
    /\ engine w' = snd (whisper_init_from_file path (engine w))
    /\ calls w' = calls w ++ [CallInitFromFile path]
    /\ objects (env w') = objects (env w)
    /\ utf_chars (env w') = utf_chars (env w)
    /\ elements (env w') = elements (env w).
Proof.
  intros Hpath.
  unfold Java_com_pccontrol_voice_audio_SpeechToTextService_00024WhisperModel_init.
  unfold bind, jni, call, LOGI, LOGE, ret, JNI.GetStringUTFChars,
    JNI.ReleaseStringUTFChars, JNI.android_log_print.
  rewrite Hpath. simpl.
  destruct (whisper_init_from_file path (engine w)) as [ctx e'].
  simpl. rewrite Nat.eqb_refl. simpl.
  destruct (ctx =? NULL); simpl; eexists; (split; [reflexivity |]);
    simpl; auto.
Qed.

(** C4.  For every model locator: when [create] returns null, [init]
    returns normally with exactly the zero handle; when [create] returns a
    non-null Context, [init] returns normally with a nonzero handle, and
    casting that handle back yields exactly that Context. *)
Theorem init_handle_encodes_context {eng : Engine}
    (thiz modelPath language : jref) (threads : jint) (w : World eng)
    (path : string) (ctx : ptr) (e' : engine_state) :
  objects (env w) !! modelPath = Some (JString path) ->
  whisper_init_from_file path (engine w) = (ctx, e') ->
  is_ptr ctx ->
  exists h w',
    jni_init thiz modelPath language threads w = (Ok h, w')
    /\ engine w' = e'
    /\ (ctx = NULL -> h = 0)
    /\ (ctx <> NULL -> h <> 0 /\ jlong_to_ptr h = ctx).
Proof.
  intros Hpath Hcreate Hptr.
  destruct (init_run thiz modelPath language threads w path Hpath)
    as (w' & Hrun & Heng & _).
  rewrite Hcreate in Hrun, Heng. simpl in Hrun, Heng.
  eexists. exists w'. split; [exact Hrun |]. split; [exact Heng |].
  destruct (ctx =? NULL) eqn:Hnull.
  - apply Z.eqb_eq in Hnull. split; [reflexivity | contradiction].
  - apply Z.eqb_neq in Hnull. split; [contradiction |]. intros _. split.
    + now apply handle_nonzero.
    + apply ptr_roundtrip. exact Hptr.
Qed.

Lemma init_handle_encodes_context_witness :
  (objects (env (dummy_world full_heap)) !! 0%nat = Some (JString "model.bin")
   /\ whisper_init_from_file "model.bin" (engine (dummy_world full_heap))
      = (NULL, full_heap)
   /\ is_ptr NULL
   /\ exists h w',
        jni_init 9%nat 0%nat 1%nat 4 (dummy_world full_heap) = (Ok h, w')
        /\ engine w' = full_heap
        /\ (NULL = NULL -> h = 0)
        /\ (NULL <> NULL -> h <> 0 /\ jlong_to_ptr h = NULL))
  /\
  (objects (env strict_world) !! 0%nat = Some (JString "model.bin")
   /\ is_ptr 16
   /\ exists h w',
        @Java_com_pccontrol_voice_audio_SpeechToTextService_00024WhisperModel_init
          strict_engine 9%nat 0%nat 1%nat 4 strict_world = (Ok h, w')
        /\ engine w' = {| Strict.created := 1; Strict.segments := [] |}
        /\ (16 = NULL -> h = 0)
        /\ (16 <> NULL -> h <> 0 /\ jlong_to_ptr h = 16)).
Proof.
  split.
  - split; [reflexivity |]. split; [reflexivity |].
    split; [unfold is_ptr, NULL; lia |].
    apply (init_handle_encodes_context 9%nat 0%nat 1%nat 4
             (dummy_world full_heap) "model.bin" NULL full_heap);
      [reflexivity | reflexivity | unfold is_ptr, NULL; lia].
  - split; [reflexivity |]. split; [unfold is_ptr; lia |].
    apply (@init_handle_encodes_context strict_engine 9%nat 0%nat 1%nat 4
             strict_world "model.bin" 16
             {| Strict.created := 1; Strict.segments := [] |});
      [reflexivity | reflexivity | unfold is_ptr; lia].
Defined.

(** ** The stub's create *)

Lemma fits_ptr (size : Z) (h : Libc.heap) :
  Libc.fits size h = true -> 0 < size ->
  is_ptr (Libc.brk h) /\ Libc.brk h <> NULL.
Proof.
  unfold Libc.fits, is_ptr, NULL. intros Hfits Hsize.
  apply andb_true_iff in Hfits as [Hfits Hend].
  apply andb_true_iff in Hfits as [Hpos Hroom].
  apply Z.ltb_lt in Hpos. apply Z.leb_le in Hroom, Hend. lia.
Qed.

Lemma stub_create_malloc (path : string) (h : Libc.heap) :
  Dummy.whisper_init_from_file path h =
  Libc.malloc Dummy.sizeof_whisper_context h.
Proof.
  unfold Dummy.whisper_init_from_file.
  now destruct (Libc.malloc Dummy.sizeof_whisper_context h).
Qed.

Lemma stub_create_is_ptr (path : string) (h : Libc.heap) :
  is_ptr (fst (Dummy.whisper_init_from_file path h)).
Proof.
  rewrite stub_create_malloc. unfold Libc.malloc.
  destruct (Libc.fits Dummy.sizeof_whisper_context h) eqn:Hfits; simpl.
  - apply (fits_ptr _ _ Hfits). unfold Dummy.sizeof_whisper_context. lia.
  - unfold is_ptr, NULL. lia.
Qed.

Lemma stub_create_null_iff (path : string) (h : Libc.heap) :
  fst (Dummy.whisper_init_from_file path h) <> NULL <->
  Libc.fits Dummy.sizeof_whisper_context h = true.
Proof.
  rewrite stub_create_malloc. unfold Libc.malloc.
  destruct (Libc.fits Dummy.sizeof_whisper_context h) eqn:Hfits; simpl.
  - split; [reflexivity |]. intros _.
    apply (fits_ptr _ _ Hfits). unfold Dummy.sizeof_whisper_context. lia.
  - split; [intros H; now contradiction H | discriminate].
Qed.

(** C6, as the code has it.  The stub's create never looks at the locator:
    for every locator it returns what [malloc] returns for the four bytes
    of a context.  That is a non-null Context exactly when the C heap can
    serve the request, and [init] through the bridge returns a nonzero
    handle in exactly that case; when [malloc] answers [NULL], create
    returns null and [init] the zero handle. *)
Theorem stub_create_succeeds_when_malloc_does
    (thiz modelPath language : jref) (threads : jint)
    (w : World dummy_engine) (path : string) :
  objects (env w) !! modelPath = Some (JString path) ->
  Dummy.whisper_init_from_file path (engine w) =
    Libc.malloc Dummy.sizeof_whisper_context (engine w)
  /\ (fst (Dummy.whisper_init_from_file path (engine w)) <> NULL <->
      Libc.fits Dummy.sizeof_whisper_context (engine w) = true)
  /\ exists h w',
       jni_init thiz modelPath language threads w = (Ok h, w')
       /\ (h <> 0 <-> Libc.fits Dummy.sizeof_whisper_context (engine w) = true).
Proof.
  intros Hpath. split; [apply stub_create_malloc |].
  split; [apply stub_create_null_iff |].
  destruct (init_run thiz modelPath language threads w path Hpath)
    as (w' & Hrun & _).
  pose proof (stub_create_is_ptr path (engine w)) as Hptr.
  pose proof (stub_create_null_iff path (engine w)) as Hiff.
  match type of Hrun with
  | context [if ?c then _ else _] => destruct c eqn:Hnull
  end.
  - apply Z.eqb_eq in Hnull. exists 0, w'. split; [exact Hrun |].
    split; intros H; exfalso.
    + apply H. reflexivity.
    + apply Hiff in H. apply H. exact Hnull.
  - apply Z.eqb_neq in Hnull. eexists. exists w'. split; [exact Hrun |].
    split; intros _.
    + apply Hiff. exact Hnull.
    + apply handle_nonzero; [exact Hptr | exact Hnull].
Qed.

Lemma stub_create_succeeds_when_malloc_does_witness :
  objects (env (dummy_world roomy_heap)) !! 0%nat = Some (JString "model.bin")
  /\ Dummy.whisper_init_from_file "model.bin" (engine (dummy_world roomy_heap)) =
       Libc.malloc Dummy.sizeof_whisper_context (engine (dummy_world roomy_heap))
  /\ (fst (Dummy.whisper_init_from_file "model.bin"
             (engine (dummy_world roomy_heap))) <> NULL <->
      Libc.fits Dummy.sizeof_whisper_context (engine (dummy_world roomy_heap))
        = true)
  /\ exists h w',
       jni_init 9%nat 0%nat 1%nat 4 (dummy_world roomy_heap) = (Ok h, w')
       /\ (h <> 0 <->
           Libc.fits Dummy.sizeof_whisper_context
             (engine (dummy_world roomy_heap)) = true).
Proof.
  split; [reflexivity |].
  apply (stub_create_succeeds_when_malloc_does 9%nat 0%nat 1%nat 4
           (dummy_world roomy_heap) "model.bin").
  reflexivity.
Defined.

(** C6, as the spec has it, fails on an exhausted heap: the stub's create
    returns null for the locator ["model.bin"], and [init] returns the zero
    handle. *)
Lemma stub_create_fails_on_exhausted_heap :
  fst (Dummy.whisper_init_from_file "model.bin" full_heap) = NULL
  /\ fst (jni_init 9%nat 0%nat 1%nat 4 (dummy_world full_heap)) = Ok 0
  /\ ~ (forall (path : string) (h : Libc.heap),
          fst (Dummy.whisper_init_from_file path h) <> NULL).
Proof.
  split; [reflexivity |]. split; [reflexivity |].
  intros Hall. apply (Hall "model.bin" full_heap). reflexivity.
Qed.

(** ** free *)

Lemma free_null {eng : Engine} (thiz : jref) (h : jlong) (w : World eng) :
  jlong_to_ptr h = NULL -> jni_free thiz h w = (Ok tt, w).
Proof.
  intros Hnull.
  unfold Java_com_pccontrol_voice_audio_SpeechToTextService_00024WhisperModel_free.
  rewrite Hnull. reflexivity.
Qed.

Lemma free_run {eng : Engine} (thiz : jref) (h : jlong) (w : World eng) :
  jlong_to_ptr h <> NULL ->
  jni_free thiz h w =
    (fst (whisper_free (jlong_to_ptr h) (engine w)),
     {| engine := snd (whisper_free (jlong_to_ptr h) (engine w));
        env := env w;
        calls := calls w ++ [CallFree (jlong_to_ptr h)] |}).
Proof.
  intros Hnull. apply Z.eqb_neq in Hnull.
  unfold Java_com_pccontrol_voice_audio_SpeechToTextService_00024WhisperModel_free.
  rewrite Hnull. simpl. unfold call.
  now destruct (whisper_free (jlong_to_ptr h) (engine w)).
Qed.

(** C3.  [free] with the zero handle returns normally and leaves the world
    as it was: [destroy] is not called.  [free] with a nonzero handle [h]
    derived from a Context [ctx] makes exactly one engine call,
    [destroy ctx], and ends as that call does. *)
Theorem free_zero_noop_nonzero_destroys_once {eng : Engine}
    (thiz : jref) (w : World eng) (ctx : ptr) (h : jlong) :
  is_ptr ctx ->
  h = ptr_to_jlong ctx ->
  h <> 0 ->
  jni_free thiz 0 w = (Ok tt, w)
  /\ jni_free thiz h w =
       (fst (whisper_free ctx (engine w)),
        {| engine := snd (whisper_free ctx (engine w));
           env := env w;
           calls := calls w ++ [CallFree ctx] |}).
Proof.
  intros Hptr -> Hnz. split.
  - apply free_null. reflexivity.
  - rewrite free_run.
    + now rewrite (ptr_roundtrip ctx Hptr).
    + intros Hnull. apply Hnz. apply ptr_to_jlong_null. exact Hnull.
Qed.

Lemma free_zero_noop_nonzero_destroys_once_witness :
  is_ptr 4096
  /\ 4096 = ptr_to_jlong 4096
  /\ 4096 <> 0
  /\ jni_free 9%nat 0 (dummy_world full_heap) = (Ok tt, dummy_world full_heap)
  /\ jni_free 9%nat 4096 (dummy_world full_heap) =
       (fst (whisper_free 4096 (engine (dummy_world full_heap))),
        {| engine := snd (whisper_free 4096 (engine (dummy_world full_heap)));
           env := env (dummy_world full_heap);
           calls := calls (dummy_world full_heap) ++ [CallFree 4096] |}).
Proof.
  split; [unfold is_ptr; lia |]. split; [reflexivity |]. split; [lia |].
  apply (free_zero_noop_nonzero_destroys_once 9%nat (dummy_world full_heap)
           4096 4096); [unfold is_ptr; lia | reflexivity | lia].
Defined.

(** Every nonzero [jlong] is the handle of the Context it casts to. *)
Lemma nonzero_handle_decodes (h : jlong) :
  is_jlong h -> h <> 0 ->
  is_ptr (jlong_to_ptr h) /\ jlong_to_ptr h <> NULL
  /\ h = ptr_to_jlong (jlong_to_ptr h).
Proof.
  intros Hh Hnz. split; [apply jlong_to_ptr_range |]. split.
  - intros Hnull. apply Hnz. now apply jlong_to_ptr_null.
  - symmetry. now apply jlong_roundtrip.
Qed.

(** On the stub, [free] of a handle from [init] returns the block to the
    heap, and a second [free] of the same handle faults. *)
Lemma stub_init_free_free :
  let w0 := dummy_world roomy_heap in
  exists h w1 w2 w3,
    jni_init 9%nat 0%nat 1%nat 4 w0 = (Ok h, w1)
    /\ h <> 0
    /\ jni_free 9%nat h w1 = (Ok tt, w2)
    /\ Libc.allocated (engine w2) = []
    /\ jni_free 9%nat h w2 = (Fault, w3).
Proof.
  simpl. do 4 eexists.
  split; [reflexivity |]. split; [discriminate |].
  split; [reflexivity |]. split; reflexivity.
Qed.

(** ** fullTranscribe *)

Lemma lookup_last_buffer {A} (l : list A) (x : A) :
  (l ++ [x]) !! length l = Some x.
Proof. now apply list_lookup_middle. Qed.

Lemma insert_last_buffer {A} (l : list A) (x y : A) :
  <[length l := y]> (l ++ [x]) = l ++ [y].
Proof.
  rewrite insert_app_r_alt by lia. now rewrite Nat.sub_diag.
Qed.

Section Transcribe.

Context {eng : Engine}.

Lemma transcribe_null (thiz : jref) (h : jlong) (audioData : jref)
    (w : World eng) :
  jlong_to_ptr h = NULL ->
  jni_fullTranscribe thiz h audioData w =
    (Ok (length (objects (env w))),
     {| engine := engine w;
        env := set_objects (objects (env w) ++ [JString ""]) (env w);
        calls := calls w |}).
Proof.
  intros Hnull.
  unfold Java_com_pccontrol_voice_audio_SpeechToTextService_00024WhisperModel_fullTranscribe.
  rewrite Hnull. reflexivity.
Qed.

Lemma transcribe_run (thiz : jref) (h : jlong) (audioData : jref)
    (w : World eng) (samples : list jfloat) :
  jlong_to_ptr h <> NULL ->
  objects (env w) !! audioData = Some (JFloatArray samples) ->
  let ctx := jlong_to_ptr h in
  let len := Z.of_nat (length samples) in
  let asked := [CallFullDefaultParams 0;
                CallFull ctx greedy_params samples len] in
  jni_fullTranscribe thiz h audioData w =
    match whisper_full ctx greedy_params samples len (engine w) with
    | (Fault, e') =>
        (Fault,
         {| engine := e';
            env := env_pinned audioData samples [log_starting len] (env w);
            calls := calls w ++ asked |})
    | (Ok status, e') =>
        if status =? 0 then
          (Ok (length (objects (env w))),
           {| engine := e';
              env := env_returned (concat_texts (segment_texts ctx e'))
                       [log_starting len] (env w);
              calls := calls w ++ asked ++ [CallFullNSegments ctx] ++
                       reads_from ctx 0
                         (Z.to_nat (whisper_full_n_segments ctx e')) |})
        else
          (Ok (length (objects (env w))),
           {| engine := e';
              env := env_returned "" [log_starting len; log_failed] (env w);
              calls := calls w ++ asked |})
    end.
Proof.
  intros Hnull Harr ctx len asked. apply Z.eqb_neq in Hnull.
  unfold Java_com_pccontrol_voice_audio_SpeechToTextService_00024WhisperModel_fullTranscribe.
  cbv zeta. rewrite Hnull. fold ctx.
  unfold bind at 1. unfold jni at 1. unfold JNI.GetArrayLength.
  rewrite Harr. fold len.
  unfold bind at 1. unfold jni at 1. unfold JNI.GetFloatArrayElements.
  cbn [env engine calls]. rewrite Harr.
  unfold bind at 1. unfold call at 1. cbn [env engine calls].
  unfold bind at 1. unfold LOGI, jni at 1. unfold JNI.android_log_print.
  cbn [env engine calls].
  unfold bind at 1. unfold jni at 1. unfold JNI.load_elements.
  cbn [env engine calls set_elements set_logcat elements objects logcat utf_chars].
  rewrite lookup_last_buffer.
  unfold bind at 1. unfold call at 1. cbn [env engine calls].
  fold greedy_params.
  destruct (whisper_full ctx greedy_params samples len (engine w))
    as [[status |] e'].
  - destruct (status =? 0) eqn:Hstatus; cbn [negb].
    + unfold bind at 1. unfold call at 1. cbn [env engine calls].
      unfold bind at 1. rewrite segments_loop_fuel by (cbn [engine]; lia).
      cbn [env engine calls]. rewrite Z.sub_0_r, texts_from_0.
      unfold bind, jni, JNI.ReleaseFloatArrayElements, JNI.NewStringUTF.
      cbn [env engine calls set_elements set_logcat set_objects
           elements objects logcat utf_chars].
      rewrite lookup_last_buffer, Nat.eqb_refl.
      cbn [negb Z.eqb JNI_ABORT JNI_COMMIT env engine calls set_elements
           set_logcat set_objects elements objects logcat utf_chars].
      rewrite !(list_insert_id (objects (env w)) audioData) by exact Harr.
      rewrite insert_last_buffer.
      unfold env_returned, log_starting, TAG.
      rewrite <- !app_assoc. reflexivity.
    + unfold bind, LOGE, jni, JNI.android_log_print,
        JNI.ReleaseFloatArrayElements, JNI.NewStringUTF.
      cbn [env engine calls set_elements set_logcat set_objects
           elements objects logcat utf_chars].
      rewrite lookup_last_buffer, Nat.eqb_refl.
      cbn [negb Z.eqb JNI_ABORT JNI_COMMIT env engine calls set_elements
           set_logcat set_objects elements objects logcat utf_chars].
      rewrite !(list_insert_id (objects (env w)) audioData) by exact Harr.
      rewrite insert_last_buffer.
      unfold env_returned, log_starting, log_failed, TAG.
      rewrite <- !app_assoc. reflexivity.
  - unfold env_pinned, log_starting, TAG, set_logcat, set_elements.
    cbn [elements objects logcat utf_chars].
    rewrite <- !app_assoc. reflexivity.
Qed.

End Transcribe.

(** ** Handles that [init] hands out *)

(** A run of [init] that returns was given a string, and a nonzero handle
    it returns is the cast of the Context the engine created; it does not
    cast back to null. *)
Lemma init_ok_inv {eng : Engine} (thiz modelPath language : jref)
    (threads : jint) (w0 w1 : World eng) (h : jlong) :
  jni_init thiz modelPath language threads w0 = (Ok h, w1) ->
  h <> 0 ->
  exists path,
    objects (env w0) !! modelPath = Some (JString path)
    /\ h = ptr_to_jlong (fst (whisper_init_from_file path (engine w0)))
    /\ jlong_to_ptr h <> NULL.
Proof.
  intros Hinit Hnz.
  destruct (objects (env w0) !! modelPath) as [[path | elems] |] eqn:Hpath.
  - exists path. split; [reflexivity |].
    destruct (init_run thiz modelPath language threads w0 path Hpath)
      as (w' & Hrun & _).
    rewrite Hrun in Hinit. injection Hinit as Hh _.
    destruct (fst (whisper_init_from_file path (engine w0)) =? NULL);
      [congruence |].
    split; [now symmetry |].
    subst h. intros Hnull. apply Hnz. now apply ptr_to_jlong_null.
  - unfold Java_com_pccontrol_voice_audio_SpeechToTextService_00024WhisperModel_init,
      bind, jni, JNI.GetStringUTFChars in Hinit.
    rewrite Hpath in Hinit. discriminate.
  - unfold Java_com_pccontrol_voice_audio_SpeechToTextService_00024WhisperModel_init,
      bind, jni, JNI.GetStringUTFChars in Hinit.
    rewrite Hpath in Hinit. discriminate.
Qed.

Lemma lookup_new_object (objs : list jobject) (o : jobject) :
  (objs ++ [o]) !! length objs = Some o.
Proof. apply lookup_last_buffer. Qed.

Lemma lookup_old_object (objs : list jobject) (o x : jobject) (r : jref) :
  objs !! r = Some x -> (objs ++ [o]) !! r = Some x.
Proof. intros H. now apply lookup_app_l_Some. Qed.

(** ** The claims on fullTranscribe *)

(** C1.  For a handle [h] that a successful [init] returned, which is the
    cast of the Context the engine created then, and a sample array on
    which [infer] succeeds, [transcribe] returns a fresh string whose
    characters are the concatenation, in order and with nothing in between,
    of [segment_text ctx i] for [i] from [0] to [segment_count ctx - 1],
    both read in the engine state that [infer] left. *)
Theorem transcribe_concatenates_segments {eng : Engine}
    (thiz modelPath language : jref) (threads : jint) (w0 w1 : World eng)
    (h : jlong) (audioData : jref) (w : World eng) (samples : list jfloat)
    (e' : engine_state) :
  jni_init thiz modelPath language threads w0 = (Ok h, w1) ->
  h <> 0 ->
  objects (env w) !! audioData = Some (JFloatArray samples) ->
  whisper_full (jlong_to_ptr h) greedy_params samples
    (Z.of_nat (length samples)) (engine w) = (Ok 0, e') ->
  exists path r w',
    objects (env w0) !! modelPath = Some (JString path)
    /\ h = ptr_to_jlong (fst (whisper_init_from_file path (engine w0)))
    /\ jni_fullTranscribe thiz h audioData w = (Ok r, w')
    /\ engine w' = e'
    /\ objects (env w') !! r =
         Some (JString (concat_texts (segment_texts (jlong_to_ptr h) e'))).
Proof.
  intros Hinit Hnz Harr Hfull.
  destruct (init_ok_inv _ _ _ _ _ _ _ Hinit Hnz)
    as (path & Hpath & Hh & Hctx).
  pose proof (transcribe_run thiz h audioData w samples Hctx Harr) as Hrun.
  cbv zeta in Hrun. rewrite Hfull in Hrun. simpl in Hrun.
  exists path. do 2 eexists.
  split; [exact Hpath |]. split; [exact Hh |].
  split; [exact Hrun |]. split; [reflexivity |].
  apply lookup_new_object.
Qed.

Lemma transcribe_concatenates_segments_witness :
  @Java_com_pccontrol_voice_audio_SpeechToTextService_00024WhisperModel_init
    strict_engine 9%nat 0%nat 1%nat 4 strict_world = (Ok 16, strict_ready)
  /\ 16 <> 0
  /\ objects (env strict_ready) !! 2%nat = Some (JFloatArray [0; 0; 0])
  /\ @whisper_full strict_engine (jlong_to_ptr 16)
       (@greedy_params strict_engine) [0; 0; 0]
       (Z.of_nat (length [0; 0; 0])) (engine strict_ready)
     = (Ok 0, strict_heard)
  /\ exists path r w',
       objects (env strict_world) !! 0%nat = Some (JString path)
       /\ 16 = ptr_to_jlong
                 (fst (@whisper_init_from_file strict_engine path
                         (engine strict_world)))
       /\ @Java_com_pccontrol_voice_audio_SpeechToTextService_00024WhisperModel_fullTranscribe
            strict_engine 9%nat 16 2%nat strict_ready = (Ok r, w')
       /\ engine w' = strict_heard
       /\ objects (env w') !! r =
            Some (JString
                    (concat_texts
                       (@segment_texts strict_engine (jlong_to_ptr 16)
                          strict_heard))).
Proof.
  split; [reflexivity |]. split; [lia |]. split; [reflexivity |].
  split; [reflexivity |].
  apply (@transcribe_concatenates_segments strict_engine 9%nat 0%nat 1%nat 4
           strict_world strict_ready 16 2%nat strict_ready [0; 0; 0]
           strict_heard);
    [reflexivity | lia | reflexivity | reflexivity].
Defined.

(** C2.  For every engine and every world: [transcribe] with the zero
    handle returns a fresh empty string for every array reference, valid
    or not, and asks nothing of the engine, whose state and list of calls
    are as before; and [transcribe] with any nonzero handle on which
    [infer] returns a nonzero status returns a fresh empty string as well,
    with the element buffer released. *)
Theorem transcribe_empty_without_context_or_on_failure {eng : Engine}
    (thiz : jref) (w : World eng) :
  (forall anyData : jref,
     exists r w0,
       jni_fullTranscribe thiz 0 anyData w = (Ok r, w0)
       /\ objects (env w0) !! r = Some (JString "")
       /\ engine w0 = engine w
       /\ calls w0 = calls w)
  /\ (forall (h : jlong) (audioData : jref) (samples : list jfloat)
             (status : Z) (e' : engine_state),
        is_jlong h ->
        h <> 0 ->
        objects (env w) !! audioData = Some (JFloatArray samples) ->
        whisper_full (jlong_to_ptr h) greedy_params samples
          (Z.of_nat (length samples)) (engine w) = (Ok status, e') ->
        status <> 0 ->
        exists r w',
          jni_fullTranscribe thiz h audioData w = (Ok r, w')
          /\ objects (env w') !! r = Some (JString "")
          /\ elements (env w') = elements (env w) ++ [None]).
Proof.
  split.
  - intros anyData. do 2 eexists.
    split; [apply transcribe_null; reflexivity |].
    split; [apply lookup_new_object |]. split; reflexivity.
  - intros h audioData samples status e' Hh Hnz Harr Hfull Hstatus.
    assert (jlong_to_ptr h <> NULL) as Hctx
        by (intros Hnull; apply Hnz; now apply jlong_to_ptr_null).
    pose proof (transcribe_run thiz h audioData w samples Hctx Harr) as Hrun.
    cbv zeta in Hrun. rewrite Hfull in Hrun.
    apply Z.eqb_neq in Hstatus. rewrite Hstatus in Hrun.
    do 2 eexists. split; [exact Hrun |].
    split; [apply lookup_new_object | reflexivity].
Qed.

Lemma transcribe_empty_without_context_or_on_failure_witness :
  (forall anyData : jref,
     exists r w0,
       jni_fullTranscribe 9%nat 0 anyData dummy_ready = (Ok r, w0)
       /\ objects (env w0) !! r = Some (JString "")
       /\ engine w0 = engine dummy_ready
       /\ calls w0 = calls dummy_ready)
  /\ is_jlong 16
  /\ 16 <> 0
  /\ objects (env strict_ready) !! 3%nat = Some (JFloatArray [])
  /\ @whisper_full strict_engine (jlong_to_ptr 16)
       (@greedy_params strict_engine) [] (Z.of_nat (length (@nil jfloat)))
       (engine strict_ready)
     = (Ok 1, engine strict_ready)
  /\ 1 <> 0
  /\ exists r w',
       @Java_com_pccontrol_voice_audio_SpeechToTextService_00024WhisperModel_fullTranscribe
         strict_engine 9%nat 16 3%nat strict_ready = (Ok r, w')
       /\ objects (env w') !! r = Some (JString "")
       /\ elements (env w') = elements (env strict_ready) ++ [None].
Proof.
  split.
  - apply (proj1 (@transcribe_empty_without_context_or_on_failure
                    dummy_engine 9%nat dummy_ready)).
  - split; [unfold is_jlong; lia |]. split; [lia |].
    split; [reflexivity |]. split; [reflexivity |]. split; [lia |].
    apply (proj2 (@transcribe_empty_without_context_or_on_failure
                    strict_engine 9%nat strict_ready)
             16 3%nat [] 1 (engine strict_ready));
      [unfold is_jlong; lia | lia | reflexivity | reflexivity | lia].
Defined.

(** The stub reports one segment, whose text is the placeholder. *)
Lemma stub_segment_texts (ctx : ptr) (h : Libc.heap) :
  concat_texts (@segment_texts dummy_engine ctx h) = placeholder.
Proof. reflexivity. Qed.

(** With the stub, [transcribe] on a Context returns the placeholder. *)
Lemma stub_transcribe_run (thiz : jref) (h : jlong) (audioData : jref)
    (w : World dummy_engine) (samples : list jfloat) :
  jlong_to_ptr h <> NULL ->
  objects (env w) !! audioData = Some (JFloatArray samples) ->
  jni_fullTranscribe thiz h audioData w =
    (Ok (length (objects (env w))),
     {| engine := engine w;
        env := env_returned placeholder
                 [log_starting (Z.of_nat (length samples))] (env w);
        calls := calls w ++
                 [CallFullDefaultParams 0;
                  CallFull (jlong_to_ptr h) greedy_params samples
                    (Z.of_nat (length samples));
                  CallFullNSegments (jlong_to_ptr h);
                  CallFullGetSegmentText (jlong_to_ptr h) 0] |}).
Proof.
  intros Hctx Harr.
  rewrite (transcribe_run thiz h audioData w samples Hctx Harr).
  reflexivity.
Qed.

(** C5.  With the stub engine, [segment_count] is [1] for every Context and
    state, [segment_text] is the placeholder for every index, and
    [transcribe] with a handle that a successful [init] returned yields a
    fresh string holding exactly the placeholder, whatever the samples. *)
Theorem stub_transcribe_returns_placeholder
    (thiz modelPath language : jref) (threads : jint)
    (w0 w1 : World dummy_engine) (h : jlong) (audioData : jref)
    (w : World dummy_engine) (samples : list jfloat) :
  jni_init thiz modelPath language threads w0 = (Ok h, w1) ->
  h <> 0 ->
  objects (env w) !! audioData = Some (JFloatArray samples) ->
  (forall ctx heap, Dummy.whisper_full_n_segments ctx heap = 1)
  /\ (forall ctx i heap,
        Dummy.whisper_full_get_segment_text ctx i heap = placeholder)
  /\ exists r w',
       jni_fullTranscribe thiz h audioData w = (Ok r, w')
       /\ objects (env w') !! r = Some (JString placeholder).
Proof.
  intros Hinit Hnz Harr.
  split; [reflexivity |]. split; [reflexivity |].
  destruct (init_ok_inv _ _ _ _ _ _ _ Hinit Hnz) as (path & _ & _ & Hctx).
  do 2 eexists. split; [apply (stub_transcribe_run _ _ _ _ _ Hctx Harr) |].
  apply lookup_new_object.
Qed.

Lemma stub_transcribe_returns_placeholder_witness :
  jni_init 9%nat 0%nat 1%nat 4 (dummy_world roomy_heap) = (Ok 4096, dummy_ready)
  /\ 4096 <> 0
  /\ objects (env dummy_ready) !! 2%nat = Some (JFloatArray [0; 0; 0])
  /\ (forall ctx heap, Dummy.whisper_full_n_segments ctx heap = 1)
  /\ (forall ctx i heap,
        Dummy.whisper_full_get_segment_text ctx i heap = placeholder)
  /\ exists r w',
       jni_fullTranscribe 9%nat 4096 2%nat dummy_ready = (Ok r, w')
       /\ objects (env w') !! r = Some (JString placeholder).
Proof.
  split; [reflexivity |]. split; [lia |]. split; [reflexivity |].
  apply (stub_transcribe_returns_placeholder 9%nat 0%nat 1%nat 4
           (dummy_world roomy_heap) dummy_ready 4096 2%nat dummy_ready
           [0; 0; 0]);
    [reflexivity | lia | reflexivity].
Defined.

Lemma reads_from_only_reads (ctx : ptr) (i : Z) (k : nat) (s : Z) :
  ~ In (CallFullDefaultParams s) (reads_from ctx i k).
Proof.
  unfold reads_from. intros Hin.
  apply in_map_iff in Hin as (j & Hj & _). discriminate.
Qed.

(** C7.  The stub's [default_parameters s] has strategy selector [s] and
    progress reporting off, for every [s].  A [transcribe] that reaches the
    engine asks for default Parameters exactly once, with selector [0]
    (greedy), and hands [infer] those defaults with progress reporting off;
    a [transcribe] with the zero handle asks for none. *)
Theorem default_parameters_keep_strategy_and_transcribe_asks_greedy
    {eng : Engine} (thiz : jref) (h : jlong) (audioData : jref)
    (w : World eng) (samples : list jfloat) :
  is_jlong h ->
  h <> 0 ->
  objects (env w) !! audioData = Some (JFloatArray samples) ->
  (forall s : Z,
     strategy (Dummy.whisper_full_default_params s) = s
     /\ print_progress (Dummy.whisper_full_default_params s) = false)
  /\ calls (snd (jni_fullTranscribe thiz 0 audioData w)) = calls w
  /\ exists rest,
       calls (snd (jni_fullTranscribe thiz h audioData w)) =
         calls w ++
         CallFullDefaultParams 0 ::
         CallFull (jlong_to_ptr h)
           (with_print_progress false (whisper_full_default_params 0))
           samples (Z.of_nat (length samples)) :: rest
       /\ forall s : Z, ~ In (CallFullDefaultParams s) rest.
Proof.
  intros Hh Hnz Harr.
  split; [intros s; split; reflexivity |].
  split; [rewrite transcribe_null by reflexivity; reflexivity |].
  assert (jlong_to_ptr h <> NULL) as Hctx
      by (intros Hnull; apply Hnz; now apply jlong_to_ptr_null).
  rewrite (transcribe_run thiz h audioData w samples Hctx Harr).
  fold (@greedy_params eng).
  destruct (whisper_full (jlong_to_ptr h) greedy_params samples
              (Z.of_nat (length samples)) (engine w)) as [[status |] e'].
  - destruct (status =? 0); cbn [snd calls].
    + eexists. split; [reflexivity |].
      intros s [Hin | Hin]; [discriminate |].
      now apply reads_from_only_reads in Hin.
    + exists []. split; [reflexivity |]. intros s [].
  - cbn [snd calls]. exists []. split; [reflexivity |]. intros s [].
Qed.

Lemma default_parameters_keep_strategy_and_transcribe_asks_greedy_witness :
  is_jlong 16
  /\ 16 <> 0
  /\ objects (env strict_ready) !! 2%nat = Some (JFloatArray [0; 0; 0])
  /\ (forall s : Z,
        strategy (Dummy.whisper_full_default_params s) = s
        /\ print_progress (Dummy.whisper_full_default_params s) = false)
  /\ calls
       (snd
          (@Java_com_pccontrol_voice_audio_SpeechToTextService_00024WhisperModel_fullTranscribe
             strict_engine 9%nat 0 2%nat strict_ready)) = calls strict_ready
  /\ exists rest,
       calls
         (snd
            (@Java_com_pccontrol_voice_audio_SpeechToTextService_00024WhisperModel_fullTranscribe
               strict_engine 9%nat 16 2%nat strict_ready)) =
         calls strict_ready ++
         CallFullDefaultParams 0 ::
         CallFull (jlong_to_ptr 16)
           (with_print_progress false
              (@whisper_full_default_params strict_engine 0))
           [0; 0; 0] (Z.of_nat (length [0; 0; 0])) :: rest
       /\ forall s : Z, ~ In (CallFullDefaultParams s) rest.
Proof.
  split; [unfold is_jlong; lia |]. split; [lia |]. split; [reflexivity |].
  apply (@default_parameters_keep_strategy_and_transcribe_asks_greedy
           strict_engine 9%nat 16 2%nat strict_ready [0; 0; 0]);
    [unfold is_jlong; lia | lia | reflexivity].
Defined.

(** C8.  The stub's [infer] returns status [0] on a zero-length buffer
    without touching it.  With the stub, [transcribe] with a nonzero handle
    on an array of length [0] returns normally with a fresh string: the
    engine is handed the empty buffer with [n_samples = 0], the only
    segment read is index [0] of the one segment reported, and the element
    buffer is released. *)
Theorem stub_transcribe_empty_array_returns
    (thiz : jref) (h : jlong) (audioData : jref) (w : World dummy_engine) :
  is_jlong h ->
  h <> 0 ->
  objects (env w) !! audioData = Some (JFloatArray []) ->
  (forall ctx params heap,
     Dummy.whisper_full ctx params [] 0 heap = (Ok 0, heap))
  /\ exists r w',
       jni_fullTranscribe thiz h audioData w = (Ok r, w')
       /\ objects (env w') !! r = Some (JString placeholder)
       /\ calls w' =
            calls w ++
            [CallFullDefaultParams 0;
             CallFull (jlong_to_ptr h) greedy_params [] 0;
             CallFullNSegments (jlong_to_ptr h);
             CallFullGetSegmentText (jlong_to_ptr h) 0]
       /\ elements (env w') = elements (env w) ++ [None].
Proof.
  intros Hh Hnz Harr. split; [reflexivity |].
  assert (jlong_to_ptr h <> NULL) as Hctx
      by (intros Hnull; apply Hnz; now apply jlong_to_ptr_null).
  do 2 eexists.
  split; [apply (stub_transcribe_run _ _ _ _ _ Hctx Harr) |].
  split; [apply lookup_new_object |]. split; reflexivity.
Qed.

Lemma stub_transcribe_empty_array_returns_witness :
  is_jlong 4096
  /\ 4096 <> 0
  /\ objects (env dummy_ready) !! 3%nat = Some (JFloatArray [])
  /\ (forall ctx params heap,
        Dummy.whisper_full ctx params [] 0 heap = (Ok 0, heap))
  /\ exists r w',
       jni_fullTranscribe 9%nat 4096 3%nat dummy_ready = (Ok r, w')
       /\ objects (env w') !! r = Some (JString placeholder)
       /\ calls w' =
            calls dummy_ready ++
            [CallFullDefaultParams 0;
             CallFull (jlong_to_ptr 4096) greedy_params [] 0;
             CallFullNSegments (jlong_to_ptr 4096);
             CallFullGetSegmentText (jlong_to_ptr 4096) 0]
       /\ elements (env w') = elements (env dummy_ready) ++ [None].
Proof.
  split; [unfold is_jlong; lia |]. split; [lia |]. split; [reflexivity |].
  apply (stub_transcribe_empty_array_returns 9%nat 4096 3%nat dummy_ready);
    [unfold is_jlong; lia | lia | reflexivity].
Defined.

(** For every engine: when [infer] returns, with whatever status,
    [transcribe] returns a fresh string and releases the element buffer. *)
Lemma transcribe_returns_when_infer_returns {eng : Engine}
    (thiz : jref) (h : jlong) (audioData : jref) (w : World eng)
    (samples : list jfloat) (status : Z) (e' : engine_state) :
  jlong_to_ptr h <> NULL ->
  objects (env w) !! audioData = Some (JFloatArray samples) ->
  whisper_full (jlong_to_ptr h) greedy_params samples
    (Z.of_nat (length samples)) (engine w) = (Ok status, e') ->
  exists r w' text,
    jni_fullTranscribe thiz h audioData w = (Ok r, w')
    /\ r = length (objects (env w))
    /\ objects (env w') = objects (env w) ++ [JString text]
    /\ elements (env w') = elements (env w) ++ [None].
Proof.
  intros Hctx Harr Hfull.
  rewrite (transcribe_run thiz h audioData w samples Hctx Harr), Hfull.
  destruct (status =? 0); do 3 eexists;
    (split; [reflexivity | split; [reflexivity | split; reflexivity]]).
Qed.

(** C9.  With the stub engine, two calls of [transcribe] in a row with the
    same handle from a successful [init] and the same sample array both
    return normally.  Each call runs [infer] again on the same samples and
    reads the segment count and the segment again, as the calls it adds
    show; each returns the transcription, the concatenation of the segment
    texts read in the state its [infer] left, which is the placeholder
    both times.  The two results are different string objects, the first
    of which the second call leaves as it was, and the array holds the
    same samples for the second call. *)
Theorem stub_transcribe_twice_same_text
    (thiz modelPath language : jref) (threads : jint)
    (w0 w1 : World dummy_engine) (h : jlong) (audioData : jref)
    (w : World dummy_engine) (samples : list jfloat) :
  jni_init thiz modelPath language threads w0 = (Ok h, w1) ->
  h <> 0 ->
  objects (env w) !! audioData = Some (JFloatArray samples) ->
  exists r1 wa r2 wb,
    jni_fullTranscribe thiz h audioData w = (Ok r1, wa)
    /\ jni_fullTranscribe thiz h audioData wa = (Ok r2, wb)
    /\ r1 <> r2
    /\ objects (env wa) !! r1 =
         Some (JString
                 (concat_texts (segment_texts (jlong_to_ptr h) (engine wa))))
    /\ objects (env wb) !! r2 =
         Some (JString
                 (concat_texts (segment_texts (jlong_to_ptr h) (engine wb))))
    /\ concat_texts (segment_texts (jlong_to_ptr h) (engine wa)) = placeholder
    /\ concat_texts (segment_texts (jlong_to_ptr h) (engine wb)) = placeholder
    /\ objects (env wb) !! r1 = objects (env wa) !! r1
    /\ objects (env wa) !! audioData = Some (JFloatArray samples)
    /\ calls wa =
         calls w ++
         [CallFullDefaultParams 0;
          CallFull (jlong_to_ptr h) greedy_params samples
            (Z.of_nat (length samples));
          CallFullNSegments (jlong_to_ptr h);
          CallFullGetSegmentText (jlong_to_ptr h) 0]
    /\ calls wb =
         calls wa ++
         [CallFullDefaultParams 0;
          CallFull (jlong_to_ptr h) greedy_params samples
            (Z.of_nat (length samples));
          CallFullNSegments (jlong_to_ptr h);
          CallFullGetSegmentText (jlong_to_ptr h) 0].
Proof.
  intros Hinit Hnz Harr.
  destruct (init_ok_inv _ _ _ _ _ _ _ Hinit Hnz) as (path & _ & _ & Hctx).
  pose proof (stub_transcribe_run thiz h audioData w samples Hctx Harr)
    as Hfirst.
  match type of Hfirst with _ = (_, ?x) => set (wa := x) in * end.
  assert (objects (env wa) !! audioData = Some (JFloatArray samples)) as Harr'
      by (apply lookup_old_object; exact Harr).
  pose proof (stub_transcribe_run thiz h audioData wa samples Hctx Harr')
    as Hsecond.
  match type of Hsecond with _ = (_, ?x) => set (wb := x) in * end.
  exists (length (objects (env w))), wa, (length (objects (env wa))), wb.
  split; [exact Hfirst |]. split; [exact Hsecond |].
  split.
  { cbn [wa env objects env_returned]. rewrite length_app. simpl. lia. }
  split; [apply lookup_new_object |].
  split; [apply lookup_new_object |].
  split; [apply stub_segment_texts |].
  split; [apply stub_segment_texts |].
  split.
  { assert (objects (env wa) !! length (objects (env w)) =
            Some (JString placeholder)) as Hkept
        by apply lookup_new_object.
    transitivity (Some (JString placeholder));
      [apply lookup_old_object; exact Hkept | symmetry; exact Hkept]. }
  split; [exact Harr' |]. split; reflexivity.
Qed.

Lemma stub_transcribe_twice_same_text_witness :
  jni_init 9%nat 0%nat 1%nat 4 (dummy_world roomy_heap) = (Ok 4096, dummy_ready)
  /\ 4096 <> 0
  /\ objects (env dummy_ready) !! 2%nat = Some (JFloatArray [0; 0; 0])
  /\ exists r1 wa r2 wb,
       jni_fullTranscribe 9%nat 4096 2%nat dummy_ready = (Ok r1, wa)
       /\ jni_fullTranscribe 9%nat 4096 2%nat wa = (Ok r2, wb)
       /\ r1 <> r2
       /\ objects (env wa) !! r1 =
            Some (JString
                    (concat_texts
                       (segment_texts (jlong_to_ptr 4096) (engine wa))))
       /\ objects (env wb) !! r2 =
            Some (JString
                    (concat_texts
                       (segment_texts (jlong_to_ptr 4096) (engine wb))))
       /\ concat_texts (segment_texts (jlong_to_ptr 4096) (engine wa)) =
          placeholder
       /\ concat_texts (segment_texts (jlong_to_ptr 4096) (engine wb)) =
          placeholder
       /\ objects (env wb) !! r1 = objects (env wa) !! r1
       /\ objects (env wa) !! 2%nat = Some (JFloatArray [0; 0; 0])
       /\ calls wa =
            calls dummy_ready ++
            [CallFullDefaultParams 0;
             CallFull (jlong_to_ptr 4096) greedy_params [0; 0; 0]
               (Z.of_nat (length [0; 0; 0]));
             CallFullNSegments (jlong_to_ptr 4096);
             CallFullGetSegmentText (jlong_to_ptr 4096) 0]
       /\ calls wb =
            calls wa ++
            [CallFullDefaultParams 0;
             CallFull (jlong_to_ptr 4096) greedy_params [0; 0; 0]
               (Z.of_nat (length [0; 0; 0]));
             CallFullNSegments (jlong_to_ptr 4096);
             CallFullGetSegmentText (jlong_to_ptr 4096) 0].
Proof.
  split; [reflexivity |]. split; [lia |]. split; [reflexivity |].
  apply (stub_transcribe_twice_same_text 9%nat 0%nat 1%nat 4
           (dummy_world roomy_heap) dummy_ready 4096 2%nat dummy_ready
           [0; 0; 0]);
    [reflexivity | lia | reflexivity].
Defined.

(** C10.  For every handle, zero or not, and every sample array,
    [transcribe] leaves the array holding the samples it held before the
    call, whether the call leaves through the zero-handle exit, the failure
    exit or the success exit, and also where the engine faults; what the
    engine is handed on the way is those same samples. *)
Theorem transcribe_leaves_samples_unchanged {eng : Engine}
    (thiz : jref) (h : jlong) (audioData : jref) (w : World eng)
    (samples : list jfloat) :
  objects (env w) !! audioData = Some (JFloatArray samples) ->
  objects (env (snd (jni_fullTranscribe thiz h audioData w))) !! audioData =
    Some (JFloatArray samples)
  /\ forall ctx params heard n,
       In (CallFull ctx params heard n)
         (calls (snd (jni_fullTranscribe thiz h audioData w))) ->
       In (CallFull ctx params heard n) (calls w) \/ heard = samples.
Proof.
  intros Harr.
  destruct (jlong_to_ptr h =? NULL) eqn:Hnull.
  - apply Z.eqb_eq in Hnull. rewrite transcribe_null by exact Hnull.
    cbn [snd env objects set_objects calls]. split.
    + now apply lookup_old_object.
    + intros ctx params heard n Hin. now left.
  - apply Z.eqb_neq in Hnull.
    rewrite (transcribe_run thiz h audioData w samples Hnull Harr).
    destruct (whisper_full (jlong_to_ptr h) greedy_params samples
                (Z.of_nat (length samples)) (engine w)) as [[status |] e'];
      [destruct (status =? 0) |];
      cbn [snd env objects env_returned env_pinned calls];
      (split; [first [now apply lookup_old_object | exact Harr] |]);
      intros ctx params heard n Hin;
      apply in_app_or in Hin as [Hin | Hin]; try (now left); right.
    + destruct Hin as [Hin | [Hin | [Hin | Hin]]];
        [discriminate | congruence | discriminate |].
      unfold reads_from in Hin.
      apply in_map_iff in Hin as (j & Hj & _). discriminate.
    + destruct Hin as [Hin | [Hin | []]]; [discriminate | congruence].
    + destruct Hin as [Hin | [Hin | []]]; [discriminate | congruence].
Qed.

Lemma transcribe_leaves_samples_unchanged_witness :
  objects (env strict_ready) !! 2%nat = Some (JFloatArray [0; 0; 0])
  /\ objects
       (env
          (snd
             (@Java_com_pccontrol_voice_audio_SpeechToTextService_00024WhisperModel_fullTranscribe
                strict_engine 9%nat 16 2%nat strict_ready))) !! 2%nat =
     Some (JFloatArray [0; 0; 0])
  /\ forall ctx params heard n,
       In (CallFull ctx params heard n)
         (calls
            (snd
               (@Java_com_pccontrol_voice_audio_SpeechToTextService_00024WhisperModel_fullTranscribe
                  strict_engine 9%nat 16 2%nat strict_ready))) ->
       In (CallFull ctx params heard n) (calls strict_ready)
       \/ heard = [0; 0; 0].
Proof.
  split; [reflexivity |].
  apply (@transcribe_leaves_samples_unchanged strict_engine 9%nat 16 2%nat
           strict_ready [0; 0; 0]).
  reflexivity.
Defined.

(** * Further properties *)

(** ** The handle encoding *)

(** X1.  The two casts of the bridge are inverse to each other: casting
    the handle of an address back gives the address, casting the address
    of a handle forth gives the handle, the handle of an address is a
    [jlong], and the zero handle stands for the null pointer and nothing
    else. *)
Theorem handle_casts_round_trip (p : ptr) (h : jlong) :
  is_ptr p ->
  is_jlong h ->
  jlong_to_ptr (ptr_to_jlong p) = p
  /\ ptr_to_jlong (jlong_to_ptr h) = h
  /\ is_jlong (ptr_to_jlong p)
  /\ (ptr_to_jlong p = 0 <-> p = NULL)
  /\ (jlong_to_ptr h = NULL <-> h = 0).
Proof.
  intros Hp Hh.
  split; [now apply ptr_roundtrip |].
  split; [now apply jlong_roundtrip |].
  split; [apply ptr_to_jlong_range |].
  split; [| now apply jlong_to_ptr_null].
  rewrite ptr_to_jlong_null, (ptr_roundtrip p Hp). reflexivity.
Qed.

Lemma handle_casts_round_trip_witness :
  is_ptr (2 ^ 64 - 16)
  /\ is_jlong (-16)
  /\ jlong_to_ptr (ptr_to_jlong (2 ^ 64 - 16)) = 2 ^ 64 - 16
  /\ ptr_to_jlong (jlong_to_ptr (-16)) = -16
  /\ is_jlong (ptr_to_jlong (2 ^ 64 - 16))
  /\ (ptr_to_jlong (2 ^ 64 - 16) = 0 <-> 2 ^ 64 - 16 = NULL)
  /\ (jlong_to_ptr (-16) = NULL <-> -16 = 0).
Proof.
  split; [unfold is_ptr; lia |]. split; [unfold is_jlong; lia |].
  apply (handle_casts_round_trip (2 ^ 64 - 16) (-16));
    [unfold is_ptr; lia | unfold is_jlong; lia].
Defined.

(** ** init *)

(** X2.  For every engine, two runs of [init] whose Contexts differ return
    different handles, a null Context among them included: no two
    Contexts share a handle, and no Context has the zero handle of a
    failed creation. *)
Theorem init_handles_of_distinct_contexts_differ {eng : Engine}
    (thiz : jref) (modelPath1 language1 : jref) (threads1 : jint)
    (wa : World eng) (path1 : string)
    (modelPath2 language2 : jref) (threads2 : jint)
    (wb : World eng) (path2 : string) :
  objects (env wa) !! modelPath1 = Some (JString path1) ->
  objects (env wb) !! modelPath2 = Some (JString path2) ->
  is_ptr (fst (whisper_init_from_file path1 (engine wa))) ->
  is_ptr (fst (whisper_init_from_file path2 (engine wb))) ->
  fst (whisper_init_from_file path1 (engine wa)) <>
    fst (whisper_init_from_file path2 (engine wb)) ->
  fst (jni_init thiz modelPath1 language1 threads1 wa) <>
    fst (jni_init thiz modelPath2 language2 threads2 wb).
Proof.
  intros Hpath1 Hpath2 Hptr1 Hptr2 Hdiff.
  destruct (init_run thiz modelPath1 language1 threads1 wa path1 Hpath1)
    as (wa' & Hrun1 & _).
  destruct (init_run thiz modelPath2 language2 threads2 wb path2 Hpath2)
    as (wb' & Hrun2 & _).
  rewrite Hrun1, Hrun2. cbn [fst].
  set (c1 := fst (whisper_init_from_file path1 (engine wa))) in *.
  set (c2 := fst (whisper_init_from_file path2 (engine wb))) in *.
  intros Heq. injection Heq as Heq.
  destruct (c1 =? NULL) eqn:Hn1; destruct (c2 =? NULL) eqn:Hn2.
  - apply Z.eqb_eq in Hn1, Hn2. congruence.
  - apply Z.eqb_neq in Hn2. now apply (handle_nonzero c2 Hptr2 Hn2).
  - apply Z.eqb_neq in Hn1. now apply (handle_nonzero c1 Hptr1 Hn1).
  - apply Hdiff.
    rewrite <- (ptr_roundtrip c1 Hptr1), <- (ptr_roundtrip c2 Hptr2).
    now rewrite Heq.
Qed.

Lemma init_handles_of_distinct_contexts_differ_witness :
  objects (env (dummy_world roomy_heap)) !! 0%nat = Some (JString "model.bin")
  /\ objects (env dummy_ready) !! 4%nat = Some (JString "")
  /\ is_ptr (fst (whisper_init_from_file "model.bin"
                    (engine (dummy_world roomy_heap))))
  /\ is_ptr (fst (whisper_init_from_file "" (engine dummy_ready)))
  /\ fst (whisper_init_from_file "model.bin" (engine (dummy_world roomy_heap)))
     <> fst (whisper_init_from_file "" (engine dummy_ready))
  /\ fst (jni_init 9%nat 0%nat 1%nat 4 (dummy_world roomy_heap)) <>
     fst (jni_init 9%nat 4%nat 1%nat 2 dummy_ready).
Proof.
  split; [reflexivity |]. split; [reflexivity |].
  split; [unfold is_ptr; simpl; lia |].
  split; [unfold is_ptr; simpl; lia |].
  split; [simpl; lia |].
  apply (init_handles_of_distinct_contexts_differ 9%nat 0%nat 1%nat 4
           (dummy_world roomy_heap) "model.bin" 4%nat 1%nat 2 dummy_ready "");
    [reflexivity | reflexivity
     | unfold is_ptr; simpl; lia | unfold is_ptr; simpl; lia
     | simpl; lia].
Defined.

(** X3.  For every engine and every locator, [init] gives back the string
    view it took, whether creation succeeds or not; it creates no managed
    object and pins no array; and it asks the engine exactly once, to
    create from the characters of the locator. *)
Theorem init_releases_view_and_asks_once {eng : Engine}
    (thiz modelPath language : jref) (threads : jint) (w : World eng)
    (path : string) :
  objects (env w) !! modelPath = Some (JString path) ->
  utf_chars (env (snd (jni_init thiz modelPath language threads w))) =
    utf_chars (env w)
  /\ objects (env (snd (jni_init thiz modelPath language threads w))) =
       objects (env w)
  /\ elements (env (snd (jni_init thiz modelPath language threads w))) =
       elements (env w)
  /\ calls (snd (jni_init thiz modelPath language threads w)) =
       calls w ++ [CallInitFromFile path]
  /\ engine (snd (jni_init thiz modelPath language threads w)) =
       snd (whisper_init_from_file path (engine w)).
Proof.
  intros Hpath.
  destruct (init_run thiz modelPath language threads w path Hpath)
    as (w' & Hrun & Heng & Hcalls & Hobj & Hutf & Helem).
  rewrite Hrun. cbn [snd].
  split; [exact Hutf |]. split; [exact Hobj |]. split; [exact Helem |].
  split; [exact Hcalls | exact Heng].
Qed.

Lemma init_releases_view_and_asks_once_witness :
  objects (env (dummy_world full_heap)) !! 0%nat = Some (JString "model.bin")
  /\ utf_chars (env (snd (jni_init 9%nat 0%nat 1%nat 4 (dummy_world full_heap))))
     = utf_chars (env (dummy_world full_heap))
  /\ objects (env (snd (jni_init 9%nat 0%nat 1%nat 4 (dummy_world full_heap))))
     = objects (env (dummy_world full_heap))
  /\ elements (env (snd (jni_init 9%nat 0%nat 1%nat 4 (dummy_world full_heap))))
     = elements (env (dummy_world full_heap))
  /\ calls (snd (jni_init 9%nat 0%nat 1%nat 4 (dummy_world full_heap))) =
       calls (dummy_world full_heap) ++ [CallInitFromFile "model.bin"]
  /\ engine (snd (jni_init 9%nat 0%nat 1%nat 4 (dummy_world full_heap))) =
       snd (whisper_init_from_file "model.bin"
              (engine (dummy_world full_heap))).
Proof.
  split; [reflexivity |].
  apply (init_releases_view_and_asks_once 9%nat 0%nat 1%nat 4
           (dummy_world full_heap) "model.bin").
  reflexivity.
Defined.

(** X4.  For every engine, [init] writes one information line naming the
    locator, followed by one error line exactly when the engine returned
    no Context; it writes nothing else. *)
Theorem init_logs_failure_only {eng : Engine}
    (thiz modelPath language : jref) (threads : jint) (w : World eng)
    (path : string) :
  objects (env w) !! modelPath = Some (JString path) ->
  logcat (env (snd (jni_init thiz modelPath language threads w))) =
    logcat (env w) ++
    log_initializing path ::
    (if fst (whisper_init_from_file path (engine w)) =? NULL
     then [log_init_failed] else []).
Proof.
  intros Hpath.
  unfold Java_com_pccontrol_voice_audio_SpeechToTextService_00024WhisperModel_init.
  unfold bind, jni, call, LOGI, LOGE, ret, JNI.GetStringUTFChars,
    JNI.ReleaseStringUTFChars, JNI.android_log_print.
  rewrite Hpath. simpl.
  destruct (whisper_init_from_file path (engine w)) as [ctx e'].
  simpl. rewrite Nat.eqb_refl. simpl.
  destruct (ctx =? NULL); simpl;
    unfold log_initializing, log_init_failed, TAG;
    rewrite <- ?app_assoc; reflexivity.
Qed.

Lemma init_logs_failure_only_witness :
  objects (env (dummy_world full_heap)) !! 0%nat = Some (JString "model.bin")
  /\ logcat (env (snd (jni_init 9%nat 0%nat 1%nat 4 (dummy_world full_heap))))
     = logcat (env (dummy_world full_heap)) ++
       log_initializing "model.bin" ::
       (if fst (whisper_init_from_file "model.bin"
                  (engine (dummy_world full_heap))) =? NULL
        then [log_init_failed] else []).
Proof.
  split; [reflexivity |].
  apply (init_logs_failure_only 9%nat 0%nat 1%nat 4 (dummy_world full_heap)
           "model.bin").
  reflexivity.
Defined.

(** ** fullTranscribe: what it asks of the engine *)

Lemma in_reads_from (ctx c : ptr) (i j : Z) (k : nat) :
  In (CallFullGetSegmentText c j) (reads_from ctx i k) <->
  c = ctx /\ i <= j < i + Z.of_nat k.
Proof.
  unfold reads_from. rewrite in_map_iff. split.
  - intros (m & Hm & Hin). apply in_seq in Hin.
    injection Hm as <- <-. split; [reflexivity | lia].
  - intros (-> & Hj). exists (Z.to_nat (j - i)). split.
    + f_equal. lia.
    + apply in_seq. lia.
Qed.

Lemma reads_from_NoDup (ctx : ptr) (k : nat) :
  forall i : Z, NoDup (reads_from ctx i k).
Proof.
  induction k as [| k IH]; intros i.
  - constructor.
  - rewrite reads_from_S. constructor; [| apply IH].
    intros Hin. apply list_elem_of_In, in_reads_from in Hin. lia.
Qed.

(** A nonzero handle with a reference that is no float array: the call
    faults at the length query, before anything is asked of the engine. *)
Lemma transcribe_not_an_array {eng : Engine}
    (thiz : jref) (h : jlong) (audioData : jref) (w : World eng) :
  jlong_to_ptr h <> NULL ->
  (forall samples, objects (env w) !! audioData <> Some (JFloatArray samples)) ->
  jni_fullTranscribe thiz h audioData w = (Fault, w).
Proof.
  intros Hnull Hnot. apply Z.eqb_neq in Hnull.
  unfold Java_com_pccontrol_voice_audio_SpeechToTextService_00024WhisperModel_fullTranscribe.
  cbv zeta. rewrite Hnull.
  unfold bind at 1. unfold jni at 1. unfold JNI.GetArrayLength.
  destruct (objects (env w) !! audioData) as [[chars | samples] |] eqn:Hobj.
  - now destruct w.
  - now contradiction (Hnot samples).
  - now destruct w.
Qed.

(** X5.  For every engine: when [infer] succeeds and [segment_count] is
    zero or negative, [transcribe] returns a fresh empty string and does
    not ask for any segment text: after the count the engine is left
    alone. *)
Theorem transcribe_without_segments_is_empty {eng : Engine}
    (thiz : jref) (h : jlong) (audioData : jref) (w : World eng)
    (samples : list jfloat) (e' : engine_state) :
  jlong_to_ptr h <> NULL ->
  objects (env w) !! audioData = Some (JFloatArray samples) ->
  whisper_full (jlong_to_ptr h) greedy_params samples
    (Z.of_nat (length samples)) (engine w) = (Ok 0, e') ->
  whisper_full_n_segments (jlong_to_ptr h) e' <= 0 ->
  exists r w',
    jni_fullTranscribe thiz h audioData w = (Ok r, w')
    /\ objects (env w') !! r = Some (JString "")
    /\ calls w' =
         calls w ++
         [CallFullDefaultParams 0;
          CallFull (jlong_to_ptr h) greedy_params samples
            (Z.of_nat (length samples));
          CallFullNSegments (jlong_to_ptr h)].
Proof.
  intros Hctx Harr Hfull Hcount.
  pose proof (transcribe_run thiz h audioData w samples Hctx Harr) as Hrun.
  cbv zeta in Hrun. rewrite Hfull in Hrun. cbn [Z.eqb] in Hrun.
  unfold segment_texts in Hrun.
  assert (Z.to_nat (whisper_full_n_segments (jlong_to_ptr h) e') = 0%nat)
    as Hzero by lia.
  rewrite Hzero in Hrun. cbn [seq List.map concat_texts fold_right] in Hrun.
  do 2 eexists. split; [exact Hrun |].
  split; [apply lookup_new_object | reflexivity].
Qed.

Lemma transcribe_without_segments_is_empty_witness :
  jlong_to_ptr 32 <> NULL
  /\ objects (env scripted_world) !! 2%nat = Some (JFloatArray [0; 0; 0])
  /\ @whisper_full scripted_engine (jlong_to_ptr 32)
       (@greedy_params scripted_engine) [0; 0; 0]
       (Z.of_nat (length [0; 0; 0])) (engine scripted_world)
     = (Ok 0, engine scripted_world)
  /\ @whisper_full_n_segments scripted_engine (jlong_to_ptr 32)
       (engine scripted_world) <= 0
  /\ exists r w',
       @Java_com_pccontrol_voice_audio_SpeechToTextService_00024WhisperModel_fullTranscribe
         scripted_engine 9%nat 32 2%nat scripted_world = (Ok r, w')
       /\ objects (env w') !! r = Some (JString "")
       /\ calls w' =
            calls scripted_world ++
            [CallFullDefaultParams 0;
             CallFull (jlong_to_ptr 32) (@greedy_params scripted_engine)
               [0; 0; 0] (Z.of_nat (length [0; 0; 0]));
             CallFullNSegments (jlong_to_ptr 32)].
Proof.
  split; [vm_compute; discriminate |]. split; [reflexivity |].
  split; [reflexivity |]. split; [vm_compute; discriminate |].
  apply (@transcribe_without_segments_is_empty scripted_engine 9%nat 32 2%nat
           scripted_world [0; 0; 0] (engine scripted_world));
    [vm_compute; discriminate | reflexivity | reflexivity
     | vm_compute; discriminate].
Defined.

(** X6.  For every engine: after a successful [infer], [transcribe] asks
    for the segment count once and then for the text of every index from
    [0] to [segment_count - 1], each exactly once and in increasing order;
    it never asks for an index outside that range. *)
Theorem transcribe_reads_each_segment_once_in_order {eng : Engine}
    (thiz : jref) (h : jlong) (audioData : jref) (w : World eng)
    (samples : list jfloat) (e' : engine_state) :
  jlong_to_ptr h <> NULL ->
  objects (env w) !! audioData = Some (JFloatArray samples) ->
  whisper_full (jlong_to_ptr h) greedy_params samples
    (Z.of_nat (length samples)) (engine w) = (Ok 0, e') ->
  calls (snd (jni_fullTranscribe thiz h audioData w)) =
    calls w ++
    [CallFullDefaultParams 0;
     CallFull (jlong_to_ptr h) greedy_params samples
       (Z.of_nat (length samples));
     CallFullNSegments (jlong_to_ptr h)] ++
    reads_from (jlong_to_ptr h) 0
      (Z.to_nat (whisper_full_n_segments (jlong_to_ptr h) e'))
  /\ NoDup (reads_from (jlong_to_ptr h) 0
              (Z.to_nat (whisper_full_n_segments (jlong_to_ptr h) e')))
  /\ forall i : Z,
       In (CallFullGetSegmentText (jlong_to_ptr h) i)
         (reads_from (jlong_to_ptr h) 0
            (Z.to_nat (whisper_full_n_segments (jlong_to_ptr h) e'))) <->
       0 <= i < whisper_full_n_segments (jlong_to_ptr h) e'.
Proof.
  intros Hctx Harr Hfull.
  rewrite (transcribe_run thiz h audioData w samples Hctx Harr), Hfull.
  cbn [Z.eqb snd calls].
  split; [reflexivity |]. split; [apply reads_from_NoDup |].
  intros i. rewrite in_reads_from. lia.
Qed.

Lemma transcribe_reads_each_segment_once_in_order_witness :
  jlong_to_ptr 16 <> NULL
  /\ objects (env strict_ready) !! 2%nat = Some (JFloatArray [0; 0; 0])
  /\ @whisper_full strict_engine (jlong_to_ptr 16)
       (@greedy_params strict_engine) [0; 0; 0]
       (Z.of_nat (length [0; 0; 0])) (engine strict_ready)
     = (Ok 0, strict_heard)
  /\ calls
       (snd
          (@Java_com_pccontrol_voice_audio_SpeechToTextService_00024WhisperModel_fullTranscribe
             strict_engine 9%nat 16 2%nat strict_ready)) =
       calls strict_ready ++
       [CallFullDefaultParams 0;
        CallFull (jlong_to_ptr 16) (@greedy_params strict_engine) [0; 0; 0]
          (Z.of_nat (length [0; 0; 0]));
        CallFullNSegments (jlong_to_ptr 16)] ++
       reads_from (jlong_to_ptr 16) 0
         (Z.to_nat
            (@whisper_full_n_segments strict_engine (jlong_to_ptr 16)
               strict_heard))
  /\ NoDup
       (reads_from (jlong_to_ptr 16) 0
          (Z.to_nat
             (@whisper_full_n_segments strict_engine (jlong_to_ptr 16)
                strict_heard)))
  /\ forall i : Z,
       In (CallFullGetSegmentText (jlong_to_ptr 16) i)
         (reads_from (jlong_to_ptr 16) 0
            (Z.to_nat
               (@whisper_full_n_segments strict_engine (jlong_to_ptr 16)
                  strict_heard))) <->
       0 <= i <
       @whisper_full_n_segments strict_engine (jlong_to_ptr 16) strict_heard.
Proof.
  split; [vm_compute; discriminate |]. split; [reflexivity |].
  split; [reflexivity |].
  apply (@transcribe_reads_each_segment_once_in_order strict_engine 9%nat 16
           2%nat strict_ready [0; 0; 0] strict_heard);
    [vm_compute; discriminate | reflexivity | reflexivity].
Defined.

(** X7.  For every engine: when [infer] returns a nonzero status,
    [transcribe] asks nothing further of the engine, neither the segment
    count nor any segment text, and leaves the engine in the state
    [infer] left. *)
Theorem transcribe_failure_reads_no_segment {eng : Engine}
    (thiz : jref) (h : jlong) (audioData : jref) (w : World eng)
    (samples : list jfloat) (status : Z) (e' : engine_state) :
  jlong_to_ptr h <> NULL ->
  objects (env w) !! audioData = Some (JFloatArray samples) ->
  whisper_full (jlong_to_ptr h) greedy_params samples
    (Z.of_nat (length samples)) (engine w) = (Ok status, e') ->
  status <> 0 ->
  calls (snd (jni_fullTranscribe thiz h audioData w)) =
    calls w ++
    [CallFullDefaultParams 0;
     CallFull (jlong_to_ptr h) greedy_params samples
       (Z.of_nat (length samples))]
  /\ engine (snd (jni_fullTranscribe thiz h audioData w)) = e'.
Proof.
  intros Hctx Harr Hfull Hstatus.
  rewrite (transcribe_run thiz h audioData w samples Hctx Harr), Hfull.
  apply Z.eqb_neq in Hstatus. rewrite Hstatus.
  split; reflexivity.
Qed.

Lemma transcribe_failure_reads_no_segment_witness :
  jlong_to_ptr 16 <> NULL
  /\ objects (env strict_ready) !! 3%nat = Some (JFloatArray [])
  /\ @whisper_full strict_engine (jlong_to_ptr 16)
       (@greedy_params strict_engine) [] (Z.of_nat (length (@nil jfloat)))
       (engine strict_ready)
     = (Ok 1, engine strict_ready)
  /\ 1 <> 0
  /\ calls
       (snd
          (@Java_com_pccontrol_voice_audio_SpeechToTextService_00024WhisperModel_fullTranscribe
             strict_engine 9%nat 16 3%nat strict_ready)) =
       calls strict_ready ++
       [CallFullDefaultParams 0;
        CallFull (jlong_to_ptr 16) (@greedy_params strict_engine) []
          (Z.of_nat (length (@nil jfloat)))]
  /\ engine
       (snd
          (@Java_com_pccontrol_voice_audio_SpeechToTextService_00024WhisperModel_fullTranscribe
             strict_engine 9%nat 16 3%nat strict_ready)) =
     engine strict_ready.
Proof.
  split; [vm_compute; discriminate |]. split; [reflexivity |].
  split; [reflexivity |]. split; [lia |].
  apply (@transcribe_failure_reads_no_segment strict_engine 9%nat 16 3%nat
           strict_ready [] 1 (engine strict_ready));
    [vm_compute; discriminate | reflexivity | reflexivity | lia].
Defined.

(** X8.  For every engine, handle and array reference, and on every way
    out of [transcribe], a fault included: whatever [transcribe] asks of
    the engine is a request for default Parameters of strategy [0], or an
    inference, a segment count or a segment text of a non-negative index,
    each on the Context of the handle, which is then not null.  It never
    creates and never destroys a Context. *)
Theorem transcribe_never_creates_or_destroys {eng : Engine}
    (thiz : jref) (h : jlong) (audioData : jref) (w : World eng) :
  exists added,
    calls (snd (jni_fullTranscribe thiz h audioData w)) = calls w ++ added
    /\ Forall (asked_by_transcribe (jlong_to_ptr h)) added.
Proof.
  destruct (jlong_to_ptr h =? NULL) eqn:Hnull.
  - apply Z.eqb_eq in Hnull. exists [].
    rewrite transcribe_null by exact Hnull. cbn [snd calls].
    split; [now rewrite app_nil_r | constructor].
  - apply Z.eqb_neq in Hnull.
    destruct (objects (env w) !! audioData) as [[chars | samples] |] eqn:Hobj.
    + exists []. rewrite transcribe_not_an_array; [| exact Hnull |].
      * cbn [snd]. split; [now rewrite app_nil_r | constructor].
      * intros samples. rewrite Hobj. discriminate.
    + rewrite (transcribe_run thiz h audioData w samples Hnull Hobj).
      destruct (whisper_full (jlong_to_ptr h) greedy_params samples
                  (Z.of_nat (length samples)) (engine w))
        as [[status |] e'];
        [destruct (status =? 0) |]; cbn [snd calls];
        eexists; (split; [reflexivity |]);
        repeat (apply Forall_cons; split; [simpl; auto |]);
        try (now apply Forall_nil).
      apply Forall_forall. intros c Hin.
      apply list_elem_of_In in Hin. unfold reads_from in Hin.
      apply in_map_iff in Hin as (j & <- & _). simpl.
      split; [reflexivity |]. split; [exact Hnull | lia].
    + exists []. rewrite transcribe_not_an_array; [| exact Hnull |].
      * cbn [snd]. split; [now rewrite app_nil_r | constructor].
      * intros samples. rewrite Hobj. discriminate.
Qed.

(** X9.  For every engine: a [transcribe] that returns returns a reference
    to a new string object, next to the objects that were there, all of
    which it leaves as they were; it leaves no string view behind, and the
    element buffer it took, if any, is released. *)
Theorem transcribe_returns_fresh_string {eng : Engine}
    (thiz : jref) (h : jlong) (audioData : jref) (w w' : World eng)
    (r : jref) :
  jni_fullTranscribe thiz h audioData w = (Ok r, w') ->
  r = length (objects (env w))
  /\ (exists text, objects (env w') = objects (env w) ++ [JString text])
  /\ utf_chars (env w') = utf_chars (env w)
  /\ (elements (env w') = elements (env w)
      \/ elements (env w') = elements (env w) ++ [None]).
Proof.
  intros Hrun.
  destruct (jlong_to_ptr h =? NULL) eqn:Hnull.
  - apply Z.eqb_eq in Hnull.
    rewrite transcribe_null in Hrun by exact Hnull.
    injection Hrun as <- <-. cbn [env objects set_objects utf_chars elements].
    split; [reflexivity |]. split; [now exists "" |].
    split; [reflexivity | now left].
  - apply Z.eqb_neq in Hnull.
    destruct (objects (env w) !! audioData) as [[chars | samples] |] eqn:Hobj.
    + rewrite transcribe_not_an_array in Hrun; [discriminate | exact Hnull |].
      intros samples. rewrite Hobj. discriminate.
    + rewrite (transcribe_run thiz h audioData w samples Hnull Hobj) in Hrun.
      destruct (whisper_full (jlong_to_ptr h) greedy_params samples
                  (Z.of_nat (length samples)) (engine w))
        as [[status |] e'];
        [destruct (status =? 0) |]; [| | discriminate];
        injection Hrun as <- <-;
        cbn [env objects env_returned utf_chars elements];
        (split; [reflexivity |]); (split; [eexists; reflexivity |]);
        (split; [reflexivity | now right]).
    + rewrite transcribe_not_an_array in Hrun; [discriminate | exact Hnull |].
      intros samples. rewrite Hobj. discriminate.
Qed.

Lemma transcribe_returns_fresh_string_witness :
  @Java_com_pccontrol_voice_audio_SpeechToTextService_00024WhisperModel_fullTranscribe
    strict_engine 9%nat 16 2%nat strict_ready =
    (Ok 5%nat,
     snd
       (@Java_com_pccontrol_voice_audio_SpeechToTextService_00024WhisperModel_fullTranscribe
          strict_engine 9%nat 16 2%nat strict_ready))
  /\ 5%nat = length (objects (env strict_ready))
  /\ (exists text,
        objects
          (env
             (snd
                (@Java_com_pccontrol_voice_audio_SpeechToTextService_00024WhisperModel_fullTranscribe
                   strict_engine 9%nat 16 2%nat strict_ready))) =
        objects (env strict_ready) ++ [JString text])
  /\ utf_chars
       (env
          (snd
             (@Java_com_pccontrol_voice_audio_SpeechToTextService_00024WhisperModel_fullTranscribe
                strict_engine 9%nat 16 2%nat strict_ready))) =
     utf_chars (env strict_ready)
  /\ (elements
        (env
           (snd
              (@Java_com_pccontrol_voice_audio_SpeechToTextService_00024WhisperModel_fullTranscribe
                 strict_engine 9%nat 16 2%nat strict_ready))) =
      elements (env strict_ready)
      \/ elements
           (env
              (snd
                 (@Java_com_pccontrol_voice_audio_SpeechToTextService_00024WhisperModel_fullTranscribe
                    strict_engine 9%nat 16 2%nat strict_ready))) =
         elements (env strict_ready) ++ [None]).
Proof.
  split; [reflexivity |].
  apply (@transcribe_returns_fresh_string strict_engine 9%nat 16 2%nat
           strict_ready
           (snd
              (@Java_com_pccontrol_voice_audio_SpeechToTextService_00024WhisperModel_fullTranscribe
                 strict_engine 9%nat 16 2%nat strict_ready)) 5%nat).
  reflexivity.
Defined.

(** X10.  For every engine: the segment loop leaves through its condition
    whatever the fuel beyond [n_segments - i], so two runs with enough
    fuel agree; and the loop changes neither the engine state nor the
    managed runtime. *)
Theorem segments_loop_fuel_irrelevant {eng : Engine}
    (fuel1 fuel2 : nat) (ctx : ptr) (n i : Z) (result : string)
    (w : World eng) :
  (Z.to_nat (n - i) <= fuel1)%nat ->
  (Z.to_nat (n - i) <= fuel2)%nat ->
  segments_loop fuel1 ctx n i result w = segments_loop fuel2 ctx n i result w
  /\ engine (snd (segments_loop fuel1 ctx n i result w)) = engine w
  /\ env (snd (segments_loop fuel1 ctx n i result w)) = env w.
Proof.
  intros Hfuel1 Hfuel2.
  rewrite (segments_loop_fuel fuel1 ctx n i result w Hfuel1).
  rewrite (segments_loop_fuel fuel2 ctx n i result w Hfuel2).
  split; [reflexivity |]. split; reflexivity.
Qed.

Lemma segments_loop_fuel_irrelevant_witness :
  (Z.to_nat (3 - 0) <= 3)%nat
  /\ (Z.to_nat (3 - 0) <= 7)%nat
  /\ @segments_loop strict_engine 3 16 3 0 "" strict_ready =
     @segments_loop strict_engine 7 16 3 0 "" strict_ready
  /\ engine (snd (@segments_loop strict_engine 3 16 3 0 "" strict_ready)) =
     engine strict_ready
  /\ env (snd (@segments_loop strict_engine 3 16 3 0 "" strict_ready)) =
     env strict_ready.
Proof.
  split; [simpl; lia |]. split; [simpl; lia |].
  apply (@segments_loop_fuel_irrelevant strict_engine 3 7 16 3 0 ""
           strict_ready); simpl; lia.
Defined.



(** ** The stub over the C heap *)

Lemma below_brk_filter (b : Z) (l : list Z) :
  forallb (fun q => q <? b) l = true ->
  List.filter (fun q => negb (q =? b)) l = l.
Proof.
  induction l as [| q l IH]; simpl; [reflexivity |].
  intros Hall. apply andb_true_iff in Hall as [Hq Hl].
  apply Z.ltb_lt in Hq.
  assert ((q =? b) = false) as -> by (apply Z.eqb_neq; lia).
  simpl. now rewrite IH.
Qed.

Lemma below_brk_not_allocated (b : Z) (l : list Z) :
  forallb (fun q => q <? b) l = true -> existsb (Z.eqb b) l = false.
Proof.
  induction l as [| q l IH]; simpl; [reflexivity |].
  intros Hall. apply andb_true_iff in Hall as [Hq Hl].
  apply Z.ltb_lt in Hq.
  assert ((b =? q) = false) as -> by (apply Z.eqb_neq; lia).
  simpl. now apply IH.
Qed.

Lemma malloc_fits (size : Z) (h : Libc.heap) :
  Libc.fits size h = true ->
  Libc.malloc size h =
    (Libc.brk h,
     {| Libc.brk := Libc.brk h + size; Libc.heap_end := Libc.heap_end h;
        Libc.allocated := Libc.brk h :: Libc.allocated h |}).
Proof. intros Hfits. unfold Libc.malloc. now rewrite Hfits. Qed.

(** Freeing the block [malloc] has just handed out takes it off the list
    of blocks in use, and freeing it again is undefined. *)
Lemma free_after_malloc (size : Z) (h : Libc.heap) :
  Libc.fits size h = true -> 0 < size -> heap_ok h = true ->
  Libc.free (Libc.brk h)
    {| Libc.brk := Libc.brk h + size; Libc.heap_end := Libc.heap_end h;
       Libc.allocated := Libc.brk h :: Libc.allocated h |} =
    (Ok tt,
     {| Libc.brk := Libc.brk h + size; Libc.heap_end := Libc.heap_end h;
        Libc.allocated := Libc.allocated h |})
  /\ Libc.free (Libc.brk h)
       {| Libc.brk := Libc.brk h + size; Libc.heap_end := Libc.heap_end h;
          Libc.allocated := Libc.allocated h |} =
       (Fault,
        {| Libc.brk := Libc.brk h + size; Libc.heap_end := Libc.heap_end h;
           Libc.allocated := Libc.allocated h |}).
Proof.
  intros Hfits Hsize Hok.
  destruct (fits_ptr size h Hfits Hsize) as [_ Hnull].
  apply Z.eqb_neq in Hnull. unfold heap_ok in Hok.
  unfold Libc.free, Libc.is_allocated. cbn [Libc.allocated Libc.brk Libc.heap_end].
  rewrite Hnull. split.
  - cbn [existsb List.filter]. rewrite Z.eqb_refl. cbn [orb negb].
    now rewrite (below_brk_filter _ _ Hok).
  - now rewrite (below_brk_not_allocated _ _ Hok).
Qed.

(** A successful [init] on the stub: the handle is the cast of [brk]. *)
Lemma stub_init_fits (thiz modelPath language : jref) (threads : jint)
    (w : World dummy_engine) (path : string) :
  objects (env w) !! modelPath = Some (JString path) ->
  Libc.fits Dummy.sizeof_whisper_context (engine w) = true ->
  exists w1,
    jni_init thiz modelPath language threads w =
      (Ok (ptr_to_jlong (Libc.brk (engine w))), w1)
    /\ engine w1 =
         {| Libc.brk := Libc.brk (engine w) + Dummy.sizeof_whisper_context;
            Libc.heap_end := Libc.heap_end (engine w);
            Libc.allocated := Libc.brk (engine w) :: Libc.allocated (engine w) |}
    /\ objects (env w1) = objects (env w)
    /\ ptr_to_jlong (Libc.brk (engine w)) <> 0
    /\ jlong_to_ptr (ptr_to_jlong (Libc.brk (engine w))) = Libc.brk (engine w).
Proof.
  intros Hpath Hfits.
  destruct (init_run thiz modelPath language threads w path Hpath)
    as (w1 & Hrun & Heng & _ & Hobj & _).
  assert (@whisper_init_from_file dummy_engine path (engine w) =
          (Libc.brk (engine w),
           {| Libc.brk := Libc.brk (engine w) + Dummy.sizeof_whisper_context;
              Libc.heap_end := Libc.heap_end (engine w);
              Libc.allocated :=
                Libc.brk (engine w) :: Libc.allocated (engine w) |}))
    as Hcreate.
  { change (@whisper_init_from_file dummy_engine path (engine w))
      with (Dummy.whisper_init_from_file path (engine w)).
    rewrite stub_create_malloc. now apply malloc_fits. }
  rewrite Hcreate in Hrun, Heng. cbn [fst snd] in Hrun, Heng.
  assert (0 < Dummy.sizeof_whisper_context) as Hsize
      by (unfold Dummy.sizeof_whisper_context; lia).
  destruct (fits_ptr _ _ Hfits Hsize) as [Hptr Hnull].
  apply Z.eqb_neq in Hnull. rewrite Hnull in Hrun. apply Z.eqb_neq in Hnull.
  exists w1. split; [exact Hrun |]. split; [exact Heng |].
  split; [exact Hobj |].
  split; [now apply handle_nonzero | now apply ptr_roundtrip].
Qed.

(** X12.  On the stub, with a heap that can serve the allocation and whose
    blocks in use all lie below [brk]: [init], then [transcribe] with the
    handle, then [free] of the handle all return; the handle is nonzero,
    the transcription is the placeholder, and afterwards the blocks in use
    are those in use before [init] and the sample array holds what it
    held. *)
Theorem stub_init_transcribe_free_restores_heap
    (thiz modelPath language : jref) (threads : jint) (audioData : jref)
    (w : World dummy_engine) (path : string) (samples : list jfloat) :
  objects (env w) !! modelPath = Some (JString path) ->
  objects (env w) !! audioData = Some (JFloatArray samples) ->
  Libc.fits Dummy.sizeof_whisper_context (engine w) = true ->
  heap_ok (engine w) = true ->
  exists h w1 r w2 w3,
    jni_init thiz modelPath language threads w = (Ok h, w1)
    /\ h <> 0
    /\ jni_fullTranscribe thiz h audioData w1 = (Ok r, w2)
    /\ objects (env w2) !! r = Some (JString placeholder)
    /\ jni_free thiz h w2 = (Ok tt, w3)
    /\ Libc.allocated (engine w3) = Libc.allocated (engine w)
    /\ objects (env w3) !! audioData = Some (JFloatArray samples).
Proof.
  intros Hpath Harr Hfits Hok.
  destruct (stub_init_fits thiz modelPath language threads w path Hpath Hfits)
    as (w1 & Hinit & Heng1 & Hobj1 & Hnz & Hback).
  assert (0 < Dummy.sizeof_whisper_context) as Hsize
      by (unfold Dummy.sizeof_whisper_context; lia).
  destruct (fits_ptr _ _ Hfits Hsize) as [_ Hnull].
  set (h := ptr_to_jlong (Libc.brk (engine w))) in *.
  assert (jlong_to_ptr h <> NULL) as Hctx by now rewrite Hback.
  assert (objects (env w1) !! audioData = Some (JFloatArray samples))
    as Harr1 by now rewrite Hobj1.
  pose proof (stub_transcribe_run thiz h audioData w1 samples Hctx Harr1)
    as Hrun.
  match type of Hrun with _ = (_, ?w) => set (w2 := w) in * end.
  pose proof (free_run thiz h w2 Hctx) as Hfree.
  cbn [w2 engine env calls] in Hfree.
  rewrite Hback, Heng1 in Hfree.
  change (@whisper_free dummy_engine) with Libc.free in Hfree.
  destruct (free_after_malloc _ _ Hfits Hsize Hok) as [Hfirst _].
  rewrite Hfirst in Hfree. cbn [fst snd] in Hfree.
  exists h, w1, (length (objects (env w1))), w2. eexists.
  split; [exact Hinit |]. split; [exact Hnz |].
  split; [exact Hrun |]. split; [apply lookup_new_object |].
  split; [exact Hfree |]. split; [reflexivity |].
  cbn [env objects env_returned]. now apply lookup_old_object.
Qed.

Lemma stub_init_transcribe_free_restores_heap_witness :
  objects (env (dummy_world used_heap)) !! 0%nat = Some (JString "model.bin")
  /\ objects (env (dummy_world used_heap)) !! 2%nat =
     Some (JFloatArray [0; 0; 0])
  /\ Libc.fits Dummy.sizeof_whisper_context (engine (dummy_world used_heap))
     = true
  /\ heap_ok (engine (dummy_world used_heap)) = true
  /\ exists h w1 r w2 w3,
       jni_init 9%nat 0%nat 1%nat 4 (dummy_world used_heap) = (Ok h, w1)
       /\ h <> 0
       /\ jni_fullTranscribe 9%nat h 2%nat w1 = (Ok r, w2)
       /\ objects (env w2) !! r = Some (JString placeholder)
       /\ jni_free 9%nat h w2 = (Ok tt, w3)
       /\ Libc.allocated (engine w3) =
          Libc.allocated (engine (dummy_world used_heap))
       /\ objects (env w3) !! 2%nat = Some (JFloatArray [0; 0; 0]).
Proof.
  split; [reflexivity |]. split; [reflexivity |]. split; [reflexivity |].
  split; [reflexivity |].
  apply (stub_init_transcribe_free_restores_heap 9%nat 0%nat 1%nat 4 2%nat
           (dummy_world used_heap) "model.bin" [0; 0; 0]);
    reflexivity.
Defined.



(** A nonzero handle from the stub's [init] tells that the heap could
    serve the allocation; the handle is the cast of the block handed out,
    which is in use afterwards next to the blocks in use before. *)
Lemma stub_init_nonzero_fits (thiz modelPath language : jref)
    (threads : jint) (w w1 : World dummy_engine) (h : jlong) :
  jni_init thiz modelPath language threads w = (Ok h, w1) ->
  h <> 0 ->
  Libc.fits Dummy.sizeof_whisper_context (engine w) = true
  /\ h = ptr_to_jlong (Libc.brk (engine w))
  /\ jlong_to_ptr h = Libc.brk (engine w)
  /\ engine w1 =
       snd (Libc.malloc Dummy.sizeof_whisper_context (engine w))
  /\ Libc.allocated (engine w1) =
       jlong_to_ptr h :: Libc.allocated (engine w).
Proof.
  intros Hinit Hnz.
  destruct (init_ok_inv _ _ _ _ _ _ _ Hinit Hnz) as (path & Hpath & Hh & _).
  destruct (Libc.fits Dummy.sizeof_whisper_context (engine w)) eqn:Hfits.
  - destruct (stub_init_fits thiz modelPath language threads w path Hpath
                Hfits) as (w1' & Hrun & Heng & _ & _ & Hback).
    rewrite Hrun in Hinit. injection Hinit as <- <-.
    split; [reflexivity |]. split; [reflexivity |].
    split; [exact Hback |].
    rewrite (malloc_fits _ _ Hfits), Heng, Hback. split; reflexivity.
  - exfalso. apply Hnz. rewrite Hh.
    change (@whisper_init_from_file dummy_engine path (engine w))
      with (Dummy.whisper_init_from_file path (engine w)).
    rewrite stub_create_malloc. unfold Libc.malloc. rewrite Hfits.
    reflexivity.
Qed.

(** What [malloc] hands out is no block in use, and the blocks in use stay
    below the break. *)
Lemma malloc_fresh (size : Z) (h : Libc.heap) :
  Libc.fits size h = true -> 0 < size -> heap_ok h = true ->
  Libc.is_allocated (fst (Libc.malloc size h)) h = false
  /\ heap_ok (snd (Libc.malloc size h)) = true.
Proof.
  intros Hfits Hsize Hok. rewrite (malloc_fits _ _ Hfits). cbn [fst snd].
  unfold heap_ok in *. split.
  - now apply below_brk_not_allocated.
  - cbn [Libc.allocated Libc.brk forallb].
    apply andb_true_iff. split; [apply Z.ltb_lt; lia |].
    apply forallb_forall. intros q Hq.
    rewrite forallb_forall in Hok. specialize (Hok q Hq).
    apply Z.ltb_lt in Hok. apply Z.ltb_lt. lia.
Qed.

(** X14.  On the stub, with every block in use below the break: a nonzero
    handle that [init] returns is the handle of no Context that was in use
    before the call, so it differs from the handle of each of them; its
    own Context is in use after the call, next to those that were, and the
    blocks in use still lie below the break.  Handles of Contexts in use,
    those of successive runs of [init] among them, are pairwise
    different. *)
Theorem stub_init_handle_is_fresh
    (thiz modelPath language : jref) (threads : jint)
    (w w1 : World dummy_engine) (h : jlong) :
  jni_init thiz modelPath language threads w = (Ok h, w1) ->
  h <> 0 ->
  heap_ok (engine w) = true ->
  Libc.is_allocated (jlong_to_ptr h) (engine w) = false
  /\ (forall p : ptr,
        is_ptr p ->
        Libc.is_allocated p (engine w) = true ->
        ptr_to_jlong p <> h)
  /\ Libc.is_allocated (jlong_to_ptr h) (engine w1) = true
  /\ (forall p : ptr,
        Libc.is_allocated p (engine w) = true ->
        Libc.is_allocated p (engine w1) = true)
  /\ heap_ok (engine w1) = true.
Proof.
  intros Hinit Hnz Hok.
  destruct (stub_init_nonzero_fits _ _ _ _ _ _ _ Hinit Hnz)
    as (Hfits & _ & Hback & Heng & Halloc).
  assert (0 < Dummy.sizeof_whisper_context) as Hsize
      by (unfold Dummy.sizeof_whisper_context; lia).
  destruct (malloc_fresh _ _ Hfits Hsize Hok) as [Hfresh Hok1].
  rewrite (malloc_fits _ _ Hfits) in Hfresh. cbn [fst] in Hfresh.
  rewrite <- Hback in Hfresh.
  split; [exact Hfresh |]. split; [| split; [| split]].
  - intros p Hp Hin Heq.
    rewrite <- Heq, (ptr_roundtrip p Hp), Hin in Hfresh. discriminate.
  - unfold Libc.is_allocated. rewrite Halloc. cbn [existsb].
    now rewrite Z.eqb_refl.
  - intros p Hin. unfold Libc.is_allocated in *. rewrite Halloc.
    cbn [existsb]. rewrite Hin. apply orb_true_r.
  - rewrite Heng. exact Hok1.
Qed.

Lemma stub_init_handle_is_fresh_witness :
  jni_init 9%nat 4%nat 1%nat 2 dummy_ready =
    (Ok 4100, snd (jni_init 9%nat 4%nat 1%nat 2 dummy_ready))
  /\ 4100 <> 0
  /\ heap_ok (engine dummy_ready) = true
  /\ Libc.is_allocated (jlong_to_ptr 4100) (engine dummy_ready) = false
  /\ (forall p : ptr,
        is_ptr p ->
        Libc.is_allocated p (engine dummy_ready) = true ->
        ptr_to_jlong p <> 4100)
  /\ Libc.is_allocated (jlong_to_ptr 4100)
       (engine (snd (jni_init 9%nat 4%nat 1%nat 2 dummy_ready))) = true
  /\ (forall p : ptr,
        Libc.is_allocated p (engine dummy_ready) = true ->
        Libc.is_allocated p
          (engine (snd (jni_init 9%nat 4%nat 1%nat 2 dummy_ready))) = true)
  /\ heap_ok (engine (snd (jni_init 9%nat 4%nat 1%nat 2 dummy_ready))) = true.
Proof.
  split; [reflexivity |]. split; [lia |]. split; [reflexivity |].
  apply (stub_init_handle_is_fresh 9%nat 4%nat 1%nat 2 dummy_ready
           (snd (jni_init 9%nat 4%nat 1%nat 2 dummy_ready)) 4100);
    [reflexivity | lia | reflexivity].
Defined.

(** X15.  On the stub, [transcribe] with any handle that does not cast to
    null returns the placeholder and leaves the C heap as it was, whether
    or not the block behind the handle is still in use: the stub's
    inference and segment accessors never look behind the Context. *)
Theorem stub_transcribe_needs_no_live_context
    (thiz : jref) (h : jlong) (audioData : jref) (w : World dummy_engine)
    (samples : list jfloat) :
  jlong_to_ptr h <> NULL ->
  objects (env w) !! audioData = Some (JFloatArray samples) ->
  exists r w',
    jni_fullTranscribe thiz h audioData w = (Ok r, w')
    /\ objects (env w') !! r = Some (JString placeholder)
    /\ engine w' = engine w.
Proof.
  intros Hctx Harr. do 2 eexists.
  split; [apply (stub_transcribe_run _ _ _ _ _ Hctx Harr) |].
  split; [apply lookup_new_object | reflexivity].
Qed.

Lemma stub_transcribe_needs_no_live_context_witness :
  jlong_to_ptr 12352 <> NULL
  /\ objects (env (dummy_world full_heap)) !! 2%nat =
     Some (JFloatArray [0; 0; 0])
  /\ exists r w',
       jni_fullTranscribe 9%nat 12352 2%nat (dummy_world full_heap) = (Ok r, w')
       /\ objects (env w') !! r = Some (JString placeholder)
       /\ engine w' = engine (dummy_world full_heap).
Proof.
  split; [vm_compute; discriminate |]. split; [reflexivity |].
  apply (stub_transcribe_needs_no_live_context 9%nat 12352 2%nat
           (dummy_world full_heap) [0; 0; 0]);
    [vm_compute; discriminate | reflexivity].
Defined.
